(** * The DNS PTR record resource of the azurerm provider

    A shallow embedding of [azurerm/resource_arm_dns_ptr_record.go]: the
    create-or-update, read and delete entry points of the resource, the
    import pass-through, and the two helpers that convert between the
    [records] set of the resource data and the record list of the DNS SDK.

    The resource data [d *schema.ResourceData] and the DNS client reached
    through [meta] are mutated by the Go code; here they are the components
    of an explicit world threaded through a state monad.  A Go panic (a
    failed type assertion, a nil pointer dereference) is an outcome of its
    own, distinct from a returned [error]. *)

From Stdlib Require Import Ascii.
From stdpp Require Import base option strings list gmap sets pretty.

Open Scope string_scope.
Open Scope list_scope.
Open Scope Z_scope.

(** ** Errors and panics *)

(** Go's [error] values.  The code builds them with [fmt.Errorf] or passes on
    the one a callee returned; [kind] records which of the specification's
    error kinds the producing site stands for, [Error] is the message. *)
Inductive ErrorKind : Type :=
| ValidationError   (* a required field is missing before dispatch *)
| ParseError        (* returned by parseAzureResourceID *)
| ProtocolError     (* the upsert answered without an identifier *)
| RemoteError       (* returned by, or wrapping an error of, the DNS client *)
| StateError.       (* returned by d.Set *)

Record error : Type := Errorf { kind : ErrorKind; Error : string }.

(** The outcome of running Go code: a normal return or a panic. *)
Inductive Result (A : Type) : Type :=
| Normal (a : A)
| Panicked (msg : string).
Arguments Normal {A} a.
Arguments Panicked {A} msg.

Definition nilDereference : string :=
  "invalid memory address or nil pointer dereference".
Definition interfaceConversion : string := "interface conversion".

(** [*p] on a pointer: panics on nil. *)
Definition deref {A : Type} (p : option A) : Result A :=
  match p with
  | Some a => Normal a
  | None => Panicked nilDereference
  end.

Global Instance Result_ret : MRet Result := fun A (a : A) => Normal a.

Global Instance Result_bind : MBind Result :=
  fun A B (f : A -> Result B) (r : Result A) =>
    match r with
    | Normal a => f a
    | Panicked msg => Panicked msg
    end.

(** [%s] applied to an error value: its message, or the bad-verb text that
    [fmt] prints for a nil interface. *)
Definition fmt_s (e : option error) : string :=
  match e with
  | Some e => Error e
  | None => "%!s(<nil>)"
  end.

(** ** The resource data (schema.ResourceData) *)

Inductive ValueType : Type := TypeString | TypeInt | TypeSet | TypeMap.

Global Instance ValueType_eq_dec : EqDecision ValueType.
Proof. solve_decision. Defined.

(** What [d.Get] hands out as an [interface{}]. *)
Inductive Value : Type :=
| VNil
| VString (s : string)
| VInt (n : Z)
| VSet (xs : gset string)               (* *schema.Set of strings *)
| VMap (m : gmap string string).        (* map[string]interface{} *)

(** What the code passes to [d.Set]: Go values before the schema converts
    them.  A nil pointer arrives as [GNil]. *)
Inductive GoValue : Type :=
| GNil
| GString (s : string)
| GInt (n : Z)
| GStrings (l : list string)            (* []string *)
| GStringMap (m : gmap string string).

(** The [Schema] map of [resourceArmDnsPtrRecord] (lines 21-57), reduced to
    the type of each attribute. *)
Definition resourceSchema : list (string * ValueType) :=
  [ ("name", TypeString);
    ("resource_group_name", TypeString);
    ("zone_name", TypeString);
    ("records", TypeSet);
    ("ttl", TypeInt);
    ("etag", TypeString);
    ("tags", TypeMap) ].

Fixpoint assoc {A : Type} (k : string) (l : list (string * A)) : option A :=
  match l with
  | [] => None
  | (k', a) :: l => if String.eqb k k' then Some a else assoc k l
  end.

Definition schemaType (k : string) : option ValueType := assoc k resourceSchema.

Definition zeroValue (t : ValueType) : Value :=
  match t with
  | TypeString => VString ""
  | TypeInt => VInt 0
  | TypeSet => VSet ∅
  | TypeMap => VMap ∅
  end.

Definition hasType (v : Value) (t : ValueType) : bool :=
  match v, t with
  | VString _, TypeString | VInt _, TypeInt
  | VSet _, TypeSet | VMap _, TypeMap => true
  | _, _ => false
  end.

(** The attribute bag and the identity of one resource. *)
Record ResourceData : Type := mkResourceData {
  Id : string;
  attrs : gmap string Value
}.

(** [d.Get(k)]: the stored value read at the type the schema gives [k], the
    zero value of that type when nothing is stored, nil for a key the schema
    does not have. *)
Definition Get (d : ResourceData) (k : string) : Value :=
  match schemaType k with
  | None => VNil
  | Some t =>
      match attrs d !! k with
      | Some v => if hasType v t then v else zeroValue t
      | None => zeroValue t
      end
  end.

(** The conversion [d.Set] applies to its argument. *)
Definition convert (t : ValueType) (g : GoValue) : option Value :=
  match t, g with
  | TypeString, GString s => Some (VString s)
  | TypeInt, GInt n => Some (VInt n)
  | TypeSet, GStrings l => Some (VSet (list_to_set l))
  | TypeMap, GStringMap m => Some (VMap m)
  | _, _ => None
  end.

(** The two ways [d.Set] changes the bag. *)
Definition store (d : ResourceData) (k : string) (v : Value) : ResourceData :=
  mkResourceData (Id d) (<[k := v]> (attrs d)).
Definition clear (d : ResourceData) (k : string) : ResourceData :=
  mkResourceData (Id d) (delete k (attrs d)).

(** [d.Set(k, g)]: writes the converted value; a nil clears the attribute; a
    key outside the schema or a value of the wrong type is refused with an
    error and changes nothing. *)
Definition Set_ (d : ResourceData) (k : string) (g : GoValue)
  : ResourceData * option error :=
  match schemaType k with
  | None => (d, Some (Errorf StateError ("Invalid address to set: " +:+ k)))
  | Some t =>
      match g with
      | GNil => (clear d k, None)
      | _ =>
          match convert t g with
          | Some v => (store d k v, None)
          | None => (d, Some (Errorf StateError (k +:+ ": wrong type")))
          end
      end
  end.

Definition SetId_ (d : ResourceData) (id : string) : ResourceData :=
  mkResourceData id (attrs d).

(** Type assertions [v.(string)], [v.(int)], [v.( *schema.Set)],
    [v.(map[string]interface{})]: each panics on any other dynamic type. *)
Definition assertString (v : Value) : Result string :=
  match v with VString s => Normal s | _ => Panicked interfaceConversion end.
Definition assertInt (v : Value) : Result Z :=
  match v with VInt n => Normal n | _ => Panicked interfaceConversion end.
Definition assertSet (v : Value) : Result (gset string) :=
  match v with VSet xs => Normal xs | _ => Panicked interfaceConversion end.
Definition assertMap (v : Value) : Result (gmap string string) :=
  match v with VMap m => Normal m | _ => Panicked interfaceConversion end.

(** The content of a value of each type, for stating what an attribute
    holds. *)
Definition stringOf (v : Value) : string :=
  match v with VString s => s | _ => "" end.
Definition intOf (v : Value) : Z :=
  match v with VInt n => n | _ => 0 end.
Definition setOf (v : Value) : gset string :=
  match v with VSet xs => xs | _ => ∅ end.
Definition mapOf (v : Value) : gmap string string :=
  match v with VMap m => m | _ => ∅ end.

(** ** The SDK's data (package dns) *)

(** [dns.RecordType] is a string type; [dns.PTR] is its constant for PTR
    record sets. *)
Definition RecordType : Type := string.
Definition PTR : RecordType := "PTR".

Definition StatusOK : Z := 200.
Definition StatusNotFound : Z := 404.

(** [dns.PtrRecord]: the target host name, behind a pointer. *)
Record PtrRecord : Type := mkPtrRecord { Ptrdname : option string }.

(** [dns.RecordSetProperties]; every field is a pointer. *)
Record RecordSetProperties : Type := mkRecordSetProperties {
  Metadata : option (gmap string string);
  TTL : option Z;
  PtrRecords : option (list PtrRecord)
}.

(** [dns.RecordSet].  [StatusCode] is the status of the HTTP response the
    value came with; the properties are reached through an embedded pointer,
    so [resp.TTL] dereferences [Properties]. *)
Record RecordSet : Type := mkRecordSet {
  StatusCode : Z;
  ID : option string;
  Name : option string;
  Etag : option string;
  Properties : option RecordSetProperties
}.

(** The parsed form of an Azure resource identifier, as the code reads it:
    [id.ResourceGroup] and the map [id.Path]. *)
Record ResourceID : Type := mkResourceID {
  ResourceGroup : string;
  Path : gmap string string
}.

(** [m[k]] on a Go map of strings: the empty string for a missing key. *)
Definition index (m : gmap string string) (k : string) : string :=
  default "" (m !! k).

(** ** The DNS service *)

(** The three operations of [client.dnsClient] that the resource calls.  The
    service is a state machine over [S]; each operation answers with the
    response value and the Go error (nil or a message), and a next state. *)
Class DnsService (S : Type) : Type := {
  svcCreateOrUpdate :
    string -> string -> string -> RecordType -> RecordSet -> string -> string ->
    S -> (RecordSet * option string) * S;
  svcGet :
    string -> string -> string -> RecordType ->
    S -> (RecordSet * option string) * S;
  svcDelete :
    string -> string -> string -> RecordType -> string ->
    S -> (Z * option string) * S
}.

(** A call as it leaves the adapter, with all its arguments. *)
Inductive Call : Type :=
| CallCreateOrUpdate (resourceGroup zone name : string) (recordType : RecordType)
    (parameters : RecordSet) (ifMatch ifNoneMatch : string)
| CallGet (resourceGroup zone name : string) (recordType : RecordType)
| CallDelete (resourceGroup zone name : string) (recordType : RecordType)
    (ifMatch : string).

Definition isUpsert (c : Call) : bool :=
  match c with CallCreateOrUpdate _ _ _ _ _ _ _ => true | _ => false end.

(** ** The world and its monad *)

(** What an entry point can touch: the resource data [d], the remote service
    behind [meta], and a log of the calls sent to that service. *)
Record World (S : Type) : Type := mkWorld {
  data : ResourceData;
  remote : S;
  calls : list Call
}.
Arguments mkWorld {S} data remote calls.
Arguments data {S} w.
Arguments remote {S} w.
Arguments calls {S} w.

Definition M (S A : Type) : Type := World S -> Result A * World S.

Global Instance M_ret {S} : MRet (M S) :=
  fun A (a : A) w => (Normal a, w).

Global Instance M_bind {S} : MBind (M S) :=
  fun A B (f : A -> M S B) (m : M S A) w =>
    match m w with
    | (Normal a, w') => f a w'
    | (Panicked msg, w') => (Panicked msg, w')
    end.

Definition run {S A} (m : M S A) (w : World S) : Result A * World S := m w.

(** A pure step that may panic. *)
Definition liftR {S A} (r : Result A) : M S A := fun w => (r, w).

Section Adapter.
Context {S : Type} `{DnsService S}.

(** [parseAzureResourceID] lives in another file of the package; the
    resource only relies on its signature: a parsed identifier or an
    error. *)
Variable parseAzureResourceID : string -> ResourceID + string.

(** *** The resource data, in the monad *)

Definition getId : M S string := fun w => (Normal (Id (data w)), w).

Definition SetId (id : string) : M S unit :=
  fun w => (Normal tt, mkWorld (SetId_ (data w) id) (remote w) (calls w)).

Definition get (k : string) : M S Value :=
  fun w => (Normal (Get (data w) k), w).

Definition set (k : string) (g : GoValue) : M S (option error) :=
  fun w => let '(d, e) := Set_ (data w) k g in
           (Normal e, mkWorld d (remote w) (calls w)).

(** *** The DNS client, in the monad: each call is logged, then answered
    by the service. *)

Definition asRemote (e : option string) : option error :=
  Errorf RemoteError <$> e.

Definition dnsCreateOrUpdate (resGroup zoneName name : string) (t : RecordType)
    (parameters : RecordSet) (ifMatch ifNoneMatch : string)
  : M S (RecordSet * option error) :=
  fun w =>
    let '(resp, err, s) :=
      svcCreateOrUpdate resGroup zoneName name t parameters ifMatch ifNoneMatch
        (remote w) in
    (Normal (resp, asRemote err),
     mkWorld (data w) s
       (calls w ++ [CallCreateOrUpdate resGroup zoneName name t parameters
                      ifMatch ifNoneMatch])).

Definition dnsGet (resGroup zoneName name : string) (t : RecordType)
  : M S (RecordSet * option error) :=
  fun w =>
    let '(resp, err, s) := svcGet resGroup zoneName name t (remote w) in
    (Normal (resp, asRemote err),
     mkWorld (data w) s (calls w ++ [CallGet resGroup zoneName name t])).

Definition dnsDelete (resGroup zoneName name : string) (t : RecordType)
    (ifMatch : string) : M S (Z * option error) :=
  fun w =>
    let '(status, err, s) := svcDelete resGroup zoneName name t ifMatch (remote w) in
    (Normal (status, asRemote err),
     mkWorld (data w) s (calls w ++ [CallDelete resGroup zoneName name t ifMatch])).

(** *** Tags (tags.go, not among the sources) *)

(** Modelled from the spec: [expandTags] is defined in the package's
    tags.go; the specification describes it as a key/value pass-through
    from the tag map to the service's metadata. *)
Definition expandTags (tags : gmap string string) : option (gmap string string) :=
  Some tags.

(** Modelled from the spec: [flattenAndSetTags] is defined in the package's
    tags.go; the specification has it write the returned metadata back
    into the tag map of the resource data. *)
Definition flattenAndSetTags (metadata : option (gmap string string)) : M S unit :=
  set "tags" (GStringMap (default ∅ metadata));; mret tt.

(** *** Records: flatten and expand (lines 159-183) *)

(** The loop of [flattenAzureRmDnsPtrRecords]:
    [results = append(results, *record.Ptrdname)] for each record. *)
Fixpoint appendPtrdnames (results : list string) (records : list PtrRecord)
  : Result (list string) :=
  match records with
  | [] => mret results
  | record :: rest =>
      fqdn ← deref (Ptrdname record);
      appendPtrdnames (results ++ [fqdn]) rest
  end.

(** [flattenAzureRmDnsPtrRecords]: the capacity [len( *records)] is computed
    first, the nil test comes after it. *)
Definition flattenAzureRmDnsPtrRecords (records : option (list PtrRecord))
  : Result (list string) :=
  pointee ← deref records;
  let capacity := length pointee in
  let results : list string := [] in
  match records with
  | Some rs => appendPtrdnames results rs
  | None => mret results
  end.

(** [expandAzureRmDnsPtrRecords]: [List()] enumerates the set (in the order
    of the set's own keys; [elements] here), each element becomes one
    record.  The second component is the returned error. *)
Definition expandRecords (recordStrings : list string) : list PtrRecord :=
  (fun fqdn => mkPtrRecord (Some fqdn)) <$> recordStrings.

Definition expandAzureRmDnsPtrRecords : M S (list PtrRecord * option error) :=
  v ← get "records";
  recordSet ← liftR (assertSet v);
  let recordStrings := elements recordSet in
  let records := expandRecords recordStrings in
  mret (records, None).

(** A pointer handed to [d.Set]: nil, or the value it points to. *)
Definition ptr {A} (inj : A -> GoValue) (p : option A) : GoValue :=
  from_option inj GNil p.

(** *** Read (lines 102-136) *)

Definition errReading (name : string) (err : error) : error :=
  Errorf RemoteError ("Error reading DNS PTR record " +:+ name +:+ ": " +:+ Error err).

Definition resourceArmDnsPtrRecordRead : M S (option error) :=
  i ← getId;
  match parseAzureResourceID i with
  | inr msg => mret (Some (Errorf ParseError msg))
  | inl id =>
      let resGroup := ResourceGroup id in
      let name := index (Path id) "PTR" in
      let zoneName := index (Path id) "dnszones" in
      '(resp, err) ← dnsGet resGroup zoneName name PTR;
      match err with
      | Some e => mret (Some (errReading name e))
      | None =>
          if decide (StatusCode resp = StatusNotFound) then
            SetId "";; mret None
          else
            set "name" (GString name);;
            set "resource_group_name" (GString resGroup);;
            set "zone_name" (GString zoneName);;
            props ← liftR (deref (Properties resp));
            set "ttl" (ptr GInt (TTL props));;
            set "etag" (ptr GString (Etag resp));;
            records ← liftR (flattenAzureRmDnsPtrRecords (PtrRecords props));
            err ← set "records" (GStrings records);
            match err with
            | Some e => mret (Some e)
            | None => flattenAndSetTags (Metadata props);; mret None
            end
      end
  end.

(** *** Create and update (lines 61-100) *)

Definition errNoID (name resGroup : string) : error :=
  Errorf ProtocolError
    ("Cannot read DNS PTR Record " +:+ name +:+ " (resource group " +:+ resGroup +:+ ") ID").

Definition upsertParameters (name : string) (metadata : option (gmap string string))
    (ttl : Z) (records : list PtrRecord) : RecordSet :=
  let props := mkRecordSetProperties metadata (Some ttl) (Some records) in
  mkRecordSet 0 None (Some name) None (Some props).

Definition resourceArmDnsPtrRecordCreateOrUpdate : M S (option error) :=
  name ← get "name" ≫= liftR ∘ assertString;
  resGroup ← get "resource_group_name" ≫= liftR ∘ assertString;
  zoneName ← get "zone_name" ≫= liftR ∘ assertString;
  ttl ← get "ttl" ≫= liftR ∘ assertInt;
  eTag ← get "etag" ≫= liftR ∘ assertString;
  tags ← get "tags" ≫= liftR ∘ assertMap;
  let metadata := expandTags tags in
  '(records, _) ← expandAzureRmDnsPtrRecords;
  let parameters := upsertParameters name metadata ttl records in
  '(resp, err) ← dnsCreateOrUpdate resGroup zoneName name PTR parameters eTag "";
  match err with
  | Some e => mret (Some e)
  | None =>
      match ID resp with
      | None => mret (Some (errNoID name resGroup))
      | Some id => SetId id;; resourceArmDnsPtrRecordRead
      end
  end.

(** *** Delete (lines 138-157) *)

Definition errDeleting (name : string) (err : option error) : error :=
  Errorf RemoteError ("Error deleting DNS PTR Record " +:+ name +:+ ": " +:+ fmt_s err).

Definition resourceArmDnsPtrRecordDelete : M S (option error) :=
  i ← getId;
  match parseAzureResourceID i with
  | inr msg => mret (Some (Errorf ParseError msg))
  | inl id =>
      let resGroup := ResourceGroup id in
      let name := index (Path id) "PTR" in
      let zoneName := index (Path id) "dnszones" in
      '(status, err) ← dnsDelete resGroup zoneName name PTR "";
      if decide (status ≠ StatusOK) then mret (Some (errDeleting name err))
      else mret None
  end.

(** *** Import (lines 17-19) *)



End Adapter.

(** ** Reference collaborators

    Executable stand-ins for the two collaborators the resource is
    parameterised by, used to run the entry points on concrete inputs. *)

(** *** Identifier parsing *)

Fixpoint splitOn (sep : Ascii.ascii) (s : string) : list string :=
  match s with
  | EmptyString => [EmptyString]
  | String c rest =>
      if Ascii.eqb c sep then EmptyString :: splitOn sep rest
      else match splitOn sep rest with
           | [] => [String c EmptyString]
           | hd :: tl => String c hd :: tl
           end
  end.

(** The path segments two by two, as key and value. *)
Fixpoint pairUp (segments : list string) (m : gmap string string)
  : gmap string string :=
  match segments with
  | k :: v :: rest => pairUp rest (<[k := v]> m)
  | _ => m
  end.

(** Modelled from the spec: [parseAzureResourceID] is defined in the
    package's resourceid.go.  The specification has it parse the opaque
    identifier into the resource group and the path segments, among which
    "PTR" and "dnszones" name the record and the zone, and fail when the
    resource-group segment or one of these two components is not there. *)
Definition parseAzureResourceIDModel (id : string) : ResourceID + string :=
  let segments := filter (fun s => s ≠ "") (splitOn "/"%char id) in
  let path := pairUp segments ∅ in
  match path !! "resourceGroups", path !! "dnszones", path !! "PTR" with
  | Some resourceGroup, Some _, Some _ => inl (mkResourceID resourceGroup path)
  | _, _, _ => inr ("Cannot parse Azure Id: " +:+ id)
  end.

(** *** An in-memory DNS service *)

Record Stored : Type := mkStored {
  storedProperties : RecordSetProperties;
  storedEtag : string
}.

(** The record sets by (resource group, zone, record type, name), and a
    counter from which entity tags are drawn. *)
Record MemDns : Type := mkMemDns {
  recordSets : gmap (string * string * string * string) Stored;
  serial : N
}.

Definition recordSetID (resGroup zone : string) (t : RecordType) (name : string) : string :=
  "/subscriptions/sub0/resourceGroups/" +:+ resGroup +:+
  "/providers/Microsoft.Network/dnszones/" +:+ zone +:+ "/" +:+ t +:+ "/" +:+ name.

Definition noRecordSet (status : Z) : RecordSet :=
  mkRecordSet status None None None None.

(** Upsert.  A non-empty [ifNoneMatch] refuses to overwrite an existing
    record set; a non-empty [ifMatch] must be the entity tag of the existing
    one; an empty token asks for no check. *)
Definition memCreateOrUpdate (resGroup zone name : string) (t : RecordType)
    (parameters : RecordSet) (ifMatch ifNoneMatch : string) (s : MemDns)
  : (RecordSet * option string) * MemDns :=
  let key := (resGroup, zone, t, name) in
  let existing := recordSets s !! key in
  if bool_decide (ifNoneMatch ≠ "" ∧ is_Some existing) then
    (noRecordSet 412, Some "StatusCode=412 precondition failed", s)
  else if bool_decide (ifMatch ≠ "" ∧ (storedEtag <$> existing) ≠ Some ifMatch) then
    (noRecordSet 412, Some "StatusCode=412 precondition failed", s)
  else
    match Properties parameters with
    | None => (noRecordSet 400, Some "StatusCode=400 bad request", s)
    | Some props =>
        let etag := pretty (serial s) in
        (mkRecordSet (if existing is Some _ then 200 else 201)
           (Some (recordSetID resGroup zone t name)) (Some name) (Some etag) (Some props),
         None,
         mkMemDns (<[key := mkStored props etag]> (recordSets s)) (N.succ (serial s)))
    end.

(** Lookup.  A missing record set is answered with status 404, which the
    client reports together with an error, as for any status but 200. *)
Definition memGet (resGroup zone name : string) (t : RecordType) (s : MemDns)
  : (RecordSet * option string) * MemDns :=
  match recordSets s !! (resGroup, zone, t, name) with
  | Some r =>
      (mkRecordSet 200 (Some (recordSetID resGroup zone t name)) (Some name)
         (Some (storedEtag r)) (Some (storedProperties r)),
       None, s)
  | None => (noRecordSet 404, Some "StatusCode=404 not found", s)
  end.

(** Unconditional or conditional delete: 200 when a record set was removed,
    204 when there was none. *)
Definition memDelete (resGroup zone name : string) (t : RecordType)
    (ifMatch : string) (s : MemDns) : (Z * option string) * MemDns :=
  let key := (resGroup, zone, t, name) in
  match recordSets s !! key with
  | Some r =>
      if bool_decide (ifMatch ≠ "" ∧ storedEtag r ≠ ifMatch) then
        (412, Some "StatusCode=412 precondition failed", s)
      else (200, None, mkMemDns (delete key (recordSets s)) (serial s))
  | None => (204, None, s)
  end.

Global Instance MemDns_service : DnsService MemDns := {
  svcCreateOrUpdate := memCreateOrUpdate;
  svcGet := memGet;
  svcDelete := memDelete
}.

(** The desired record of the specification's example. *)
Definition exampleData : ResourceData :=
  mkResourceData ""
    (<["name" := VString "ptr1"]>
     (<["resource_group_name" := VString "rg1"]>
      (<["zone_name" := VString "zone1"]>
       (<["records" := VSet {["host1.example.com"; "host2.example.com"]}]>
        (<["ttl" := VInt 300]>
         (<["tags" := VMap {["env" := "prod"]}]> ∅)))))).

Definition emptyDns : MemDns := mkMemDns ∅ 0.

Definition exampleWorld : World MemDns := mkWorld exampleData emptyDns [].

(** ** Vocabulary for the properties *)

(** The desired record, as [CreateOrUpdate] reads it from the resource data,
    and the entity tag last written there. *)
Definition desiredName (d : ResourceData) : string := stringOf (Get d "name").
Definition desiredResourceGroup (d : ResourceData) : string :=
  stringOf (Get d "resource_group_name").
Definition desiredZone (d : ResourceData) : string := stringOf (Get d "zone_name").
Definition desiredTTL (d : ResourceData) : Z := intOf (Get d "ttl").
Definition desiredRecords (d : ResourceData) : gset string := setOf (Get d "records").
Definition desiredTags (d : ResourceData) : gmap string string := mapOf (Get d "tags").
Definition knownEtag (d : ResourceData) : string := stringOf (Get d "etag").

(** The properties assembled from the desired record. *)
Definition desiredParameters (d : ResourceData) : RecordSet :=
  upsertParameters (desiredName d) (expandTags (desiredTags d)) (desiredTTL d)
    (expandRecords (elements (desiredRecords d))).

(** The upsert call that the desired record calls for. *)
Definition upsertCall (d : ResourceData) : Call :=
  CallCreateOrUpdate (desiredResourceGroup d) (desiredZone d) (desiredName d) PTR
    (desiredParameters d) (knownEtag d) "".

(** The triple a parsed identifier stands for. *)
Definition nameOf (id : ResourceID) : string := index (Path id) "PTR".
Definition zoneOf (id : ResourceID) : string := index (Path id) "dnszones".

Definition getCall (id : ResourceID) : Call :=
  CallGet (ResourceGroup id) (zoneOf id) (nameOf id) PTR.
Definition deleteCall (id : ResourceID) : Call :=
  CallDelete (ResourceGroup id) (zoneOf id) (nameOf id) PTR "".

(** A pointer written with [d.Set]: stored, or cleared when nil. *)
Definition write (d : ResourceData) (k : string) (v : option Value) : ResourceData :=
  match v with
  | Some v => store d k v
  | None => clear d k
  end.

(** The resource data after [Read] has written a found record set back:
    first the triple of the identifier, then ttl and entity tag, then the
    host names and the tags. *)
Definition identityBack (d : ResourceData) (id : ResourceID) : ResourceData :=
  let d := store d "name" (VString (nameOf id)) in
  let d := store d "resource_group_name" (VString (ResourceGroup id)) in
  store d "zone_name" (VString (zoneOf id)).

Definition tokensBack (d : ResourceData) (resp : RecordSet)
    (props : RecordSetProperties) : ResourceData :=
  let d := write d "ttl" (VInt <$> TTL props) in
  write d "etag" (VString <$> Etag resp).

Definition readBack (d : ResourceData) (id : ResourceID) (resp : RecordSet)
    (props : RecordSetProperties) (names : list string) : ResourceData :=
  let d := tokensBack (identityBack d id) resp props in
  let d := store d "records" (VSet (list_to_set names)) in
  store d "tags" (VMap (default ∅ (Metadata props))).

(** A response that gives back a desired record: found, with the desired
    ttl, and with the desired host names in any order. *)
Definition Echoes (d : ResourceData) (resp : RecordSet) : Prop :=
  StatusCode resp ≠ StatusNotFound ∧
  ∃ props rs,
    Properties resp = Some props ∧
    TTL props = Some (desiredTTL d) ∧
    PtrRecords props = Some rs ∧
    rs ≡ₚ expandRecords (elements (desiredRecords d)).

(** A response whose metadata are the desired tags. *)
Definition EchoesTags (d : ResourceData) (resp : RecordSet) : Prop :=
  ∃ props, Properties resp = Some props ∧ default ∅ (Metadata props) = desiredTags d.

(** A parsed identifier that names the desired record. *)
Definition Names (id : ResourceID) (d : ResourceData) : Prop :=
  ResourceGroup id = desiredResourceGroup d ∧
  zoneOf id = desiredZone d ∧
  nameOf id = desiredName d.

Section Exchanges.
Context {S : Type} `{DnsService S}.
Variable parse : string -> ResourceID + string.

(** The service, in state [s], accepts the upsert of the desired record of
    [d] under the entity tag [etag]: it answers without error, with the
    identifier [opaque] that parses to [id], and moves to [s']. *)
Definition Upserts (d : ResourceData) (etag : string) (s : S)
    (opaque : string) (id : ResourceID) (s' : S) : Prop :=
  ∃ resp,
    svcCreateOrUpdate (desiredResourceGroup d) (desiredZone d) (desiredName d) PTR
      (desiredParameters d) etag "" s = (resp, None, s') ∧
    ID resp = Some opaque ∧
    parse opaque = inl id.

(** The service, in state [s], answers the lookup of [id] with [resp] and
    no error, and moves to [s']. *)
Definition Returns (s : S) (id : ResourceID) (resp : RecordSet) (s' : S) : Prop :=
  svcGet (ResourceGroup id) (zoneOf id) (nameOf id) PTR s = (resp, None, s').

End Exchanges.

(** The remote record as the last [Read] left it in the resource data,
    without its entity tag. *)
Definition observed (d : ResourceData) : gset string * Z * gmap string string :=
  (desiredRecords d, desiredTTL d, desiredTags d).

(** The identifier the in-memory service gives the example record, and its
    parsed form. *)
Definition exampleID : string := recordSetID "rg1" "zone1" PTR "ptr1".

Definition exampleResourceID : ResourceID :=
  mkResourceID "rg1"
    (list_to_map [("subscriptions", "sub0"); ("resourceGroups", "rg1");
                  ("providers", "Microsoft.Network"); ("dnszones", "zone1");
                  ("PTR", "ptr1")]).

(** The example record with its name left out. *)
Definition namelessWorld : World MemDns :=
  mkWorld (clear exampleData "name") emptyDns [].

(** A resource data that holds the identifier of a record the service does
    not have. *)
Definition unknownWorld : World MemDns :=
  mkWorld (SetId_ exampleData exampleID) emptyDns [].

(** The world after the example record has been created. *)
Definition createdWorld : World MemDns :=
  snd (run (resourceArmDnsPtrRecordCreateOrUpdate parseAzureResourceIDModel) exampleWorld).

(** The world after the example record has been created a second time. *)
Definition recreatedWorld : World MemDns :=
  snd (run (resourceArmDnsPtrRecordCreateOrUpdate parseAzureResourceIDModel) createdWorld).

(** The entry points with the reference parser. *)
Local Abbreviation Read0 := (resourceArmDnsPtrRecordRead parseAzureResourceIDModel).
Local Abbreviation CreateOrUpdate0 :=
  (resourceArmDnsPtrRecordCreateOrUpdate parseAzureResourceIDModel).
Local Abbreviation Delete0 := (resourceArmDnsPtrRecordDelete parseAzureResourceIDModel).

(** A found response that [Read] can write back: it has its properties, a
    record list, and a name in every record. *)
Definition Complete (resp : RecordSet) : Prop :=
  ∃ props rs,
    Properties resp = Some props ∧ PtrRecords props = Some rs
    ∧ Forall (fun r => is_Some (Ptrdname r)) rs.

(** *** A scripted DNS service

    A service that gives each operation one fixed answer, whatever it is
    asked; it puts the entry points in front of answers the in-memory
    service never gives. *)
Record Canned : Type := mkCanned {
  upsertAnswer : RecordSet * option string;
  getAnswer : RecordSet * option string;
  deleteAnswer : Z * option string
}.

Global Instance Canned_service : DnsService Canned := {
  svcCreateOrUpdate := fun _ _ _ _ _ _ _ s => (upsertAnswer s, s);
  svcGet := fun _ _ _ _ s => (getAnswer s, s);
  svcDelete := fun _ _ _ _ _ s => (deleteAnswer s, s)
}.

(** The example record as a service would return it, with the host names
    listed in the opposite order and one of them twice. *)
Definition exampleProperties : RecordSetProperties :=
  mkRecordSetProperties (Some {["env" := "prod"]}) (Some 300)
    (Some [mkPtrRecord (Some "host2.example.com");
           mkPtrRecord (Some "host1.example.com");
           mkPtrRecord (Some "host2.example.com")]).

Definition exampleFound : RecordSet :=
  mkRecordSet 200 (Some exampleID) (Some "ptr1") (Some "etag-7") (Some exampleProperties).

Definition accepted : RecordSet * option string :=
  (mkRecordSet 201 (Some exampleID) (Some "ptr1") (Some "etag-7") (Some exampleProperties),
   None).

(** The example resource data with its identifier, in front of a scripted
    service. *)
Definition cannedWorld (upsert get : RecordSet * option string)
    (del : Z * option string) : World Canned :=
  mkWorld (SetId_ exampleData exampleID) (mkCanned upsert get del) [].

(** *** A service that stores what it is sent *)

(** Two record lists behind pointers, equal up to the order of the
    records. *)
Definition sameRecords (a b : option (list PtrRecord)) : Prop :=
  match a, b with
  | Some rs, Some rs' => rs ≡ₚ rs'
  | None, None => True
  | _, _ => False
  end.

(** A response that gives back the properties [props]: found, with their
    ttl and with their records in any order. *)
Definition GivesBack (props : RecordSetProperties) (resp : RecordSet) : Prop :=
  StatusCode resp ≠ StatusNotFound ∧
  ∃ p, Properties resp = Some p ∧ TTL p = TTL props
       ∧ sameRecords (PtrRecords p) (PtrRecords props).

Section Store.
Context {S : Type} `{DnsService S}.
Variable parse : string -> ResourceID + string.

(** In every state of [P] the lookup of [id] is answered without error
    with the properties [props], and leads to a state of [P] again. *)
Definition Keeps (P : S -> Prop) (id : ResourceID) (props : RecordSetProperties) : Prop :=
  ∀ s, P s ->
    ∃ resp s',
      svcGet (ResourceGroup id) (zoneOf id) (nameOf id) PTR s = (resp, None, s')
      ∧ P s' ∧ GivesBack props resp.

(** In state [s] the service stores what an upsert of this record sends:
    whatever properties the parameters carry, the upsert is accepted and
    answered with an identifier that parses, and from then on the lookup of
    that identifier gives those properties back. *)
Definition Stores (s : S) (resGroup zone name etag : string) : Prop :=
  ∀ parameters props,
    Properties parameters = Some props ->
    ∃ resp opaque id s1 (P : S -> Prop),
      svcCreateOrUpdate resGroup zone name PTR parameters etag "" s = (resp, None, s1)
      ∧ ID resp = Some opaque
      ∧ parse opaque = inl id
      ∧ P s1
      ∧ Keeps P id props.

End Store.

(** *** The shape of a record set's identifier *)






(** * Properties *)

(** ** The resource data *)

Lemma hasType_zeroValue t : hasType (zeroValue t) t = true.
Proof. by destruct t. Qed.

Lemma Get_hasType d k t : schemaType k = Some t -> hasType (Get d k) t = true.
Proof.
  intros Hk. unfold Get. rewrite Hk.
  destruct (attrs d !! k) as [v|]; [|apply hasType_zeroValue].
  destruct (hasType v t) eqn:Hv; [done|apply hasType_zeroValue].
Qed.

Lemma Get_absent d k t :
  schemaType k = Some t -> attrs d !! k = None -> Get d k = zeroValue t.
Proof. intros Hk Hd. unfold Get. by rewrite Hk, Hd. Qed.

Lemma assertString_Get d k :
  schemaType k = Some TypeString -> assertString (Get d k) = Normal (stringOf (Get d k)).
Proof. intros Hk. pose proof (Get_hasType d k _ Hk). by destruct (Get d k). Qed.

Lemma assertInt_Get d k :
  schemaType k = Some TypeInt -> assertInt (Get d k) = Normal (intOf (Get d k)).
Proof. intros Hk. pose proof (Get_hasType d k _ Hk). by destruct (Get d k). Qed.

Lemma assertSet_Get d k :
  schemaType k = Some TypeSet -> assertSet (Get d k) = Normal (setOf (Get d k)).
Proof. intros Hk. pose proof (Get_hasType d k _ Hk). by destruct (Get d k). Qed.

Lemma assertMap_Get d k :
  schemaType k = Some TypeMap -> assertMap (Get d k) = Normal (mapOf (Get d k)).
Proof. intros Hk. pose proof (Get_hasType d k _ Hk). by destruct (Get d k). Qed.

Lemma Get_store_eq d k v t :
  schemaType k = Some t -> hasType v t = true -> Get (store d k v) k = v.
Proof.
  intros Hk Hv. unfold Get, store; simpl. by rewrite Hk, lookup_insert_eq, Hv.
Qed.

Lemma Get_store_ne d k k' v : k ≠ k' -> Get (store d k v) k' = Get d k'.
Proof. intros Hne. unfold Get, store; simpl. by rewrite lookup_insert_ne. Qed.

Lemma Get_clear_eq d k t : schemaType k = Some t -> Get (clear d k) k = zeroValue t.
Proof. intros Hk. unfold Get, clear; simpl. by rewrite Hk, lookup_delete_eq. Qed.

Lemma Get_clear_ne d k k' : k ≠ k' -> Get (clear d k) k' = Get d k'.
Proof. intros Hne. unfold Get, clear; simpl. by rewrite lookup_delete_ne. Qed.

Lemma Get_SetId d i k : Get (SetId_ d i) k = Get d k.
Proof. done. Qed.

Lemma Get_write_ne d k k' v : k ≠ k' -> Get (write d k v) k' = Get d k'.
Proof. destruct v; [apply Get_store_ne|apply Get_clear_ne]. Qed.

Lemma Get_write_eq d k v t :
  schemaType k = Some t ->
  (∀ x, v = Some x -> hasType x t = true) ->
  Get (write d k v) k = default (zeroValue t) v.
Proof.
  intros Hk Hv. destruct v as [x|]; simpl.
  - apply (Get_store_eq _ _ _ t); auto.
  - by apply Get_clear_eq.
Qed.

(** ** What [Read] leaves in the resource data *)

Ltac through_writes :=
  repeat first [ rewrite Get_store_ne by done | rewrite Get_write_ne by done ].

Lemma readBack_Id d id resp props names : Id (readBack d id resp props names) = Id d.
Proof.
  unfold readBack, tokensBack, identityBack.
  by destruct (TTL props), (Etag resp).
Qed.

Lemma readBack_name d id resp props names :
  desiredName (readBack d id resp props names) = nameOf id.
Proof.
  unfold desiredName, readBack, tokensBack, identityBack. through_writes.
  by rewrite (Get_store_eq _ _ _ TypeString).
Qed.

Lemma readBack_resourceGroup d id resp props names :
  desiredResourceGroup (readBack d id resp props names) = ResourceGroup id.
Proof.
  unfold desiredResourceGroup, readBack, tokensBack, identityBack. through_writes.
  by rewrite (Get_store_eq _ _ _ TypeString).
Qed.

Lemma readBack_zone d id resp props names :
  desiredZone (readBack d id resp props names) = zoneOf id.
Proof.
  unfold desiredZone, readBack, tokensBack, identityBack. through_writes.
  by rewrite (Get_store_eq _ _ _ TypeString).
Qed.

Lemma readBack_ttl d id resp props names :
  desiredTTL (readBack d id resp props names) = default 0 (TTL props).
Proof.
  unfold desiredTTL, readBack, tokensBack, identityBack. through_writes.
  rewrite (Get_write_eq _ _ _ TypeInt); [|done|].
  - by destruct (TTL props).
  - intros x Hx. destruct (TTL props); by simplify_eq/=.
Qed.

Lemma readBack_etag d id resp props names :
  knownEtag (readBack d id resp props names) = default "" (Etag resp).
Proof.
  unfold knownEtag, readBack, tokensBack, identityBack. through_writes.
  rewrite (Get_write_eq _ _ _ TypeString); [|done|].
  - by destruct (Etag resp).
  - intros x Hx. destruct (Etag resp); by simplify_eq/=.
Qed.

Lemma readBack_records d id resp props names :
  desiredRecords (readBack d id resp props names) = list_to_set names.
Proof.
  unfold desiredRecords, readBack. through_writes.
  by rewrite (Get_store_eq _ _ _ TypeSet).
Qed.

Lemma readBack_tags d id resp props names :
  desiredTags (readBack d id resp props names) = default ∅ (Metadata props).
Proof.
  unfold desiredTags, readBack.
  by rewrite (Get_store_eq _ _ _ TypeMap).
Qed.

(** ** Records: expansion and flattening *)

Lemma appendPtrdnames_expand acc l :
  appendPtrdnames acc (expandRecords l) = Normal (acc ++ l).
Proof.
  revert acc. induction l as [|x l IH]; intros acc; simpl.
  - by rewrite app_nil_r.
  - rewrite IH. by rewrite <- app_assoc.
Qed.

(** Flattening an expanded list gives the list back. *)
Lemma flatten_expand l :
  flattenAzureRmDnsPtrRecords (Some (expandRecords l)) = Normal l.
Proof. unfold flattenAzureRmDnsPtrRecords; simpl. apply appendPtrdnames_expand. Qed.

Lemma appendPtrdnames_Permutation l1 l2 acc r1 :
  l1 ≡ₚ l2 ->
  appendPtrdnames acc l1 = Normal r1 ->
  ∃ r2, appendPtrdnames acc l2 = Normal r2 ∧ r1 ≡ₚ r2.
Proof.
  intros Hp. revert acc r1.
  induction Hp as [|x l1 l2 _ IH|x y l|l1 l2 l3 _ IH1 _ IH2]; intros acc r1; simpl.
  - eauto.
  - destruct (Ptrdname x) as [a|]; simpl; [apply IH|done].
  - destruct (Ptrdname x) as [a|], (Ptrdname y) as [b|]; simpl; try done.
    intros Hr.
    assert (Hgen : ∀ l0 acc1 acc2 r, acc1 ≡ₚ acc2 ->
              appendPtrdnames acc1 l0 = Normal r ->
              ∃ r', appendPtrdnames acc2 l0 = Normal r' ∧ r ≡ₚ r').
    { clear. induction l0 as [|z l0 IH]; intros acc1 acc2 r Hacc; simpl.
      - intros [= <-]. eauto.
      - destruct (Ptrdname z) as [c|]; simpl; [|done].
        apply IH. by rewrite Hacc. }
    eapply Hgen; [|exact Hr].
    rewrite <- !app_assoc. simpl. apply Permutation_app_head, perm_swap.
  - intros Hr. destruct (IH1 _ _ Hr) as (r2 & Hr2 & Hp12).
    destruct (IH2 _ _ Hr2) as (r3 & Hr3 & Hp23).
    exists r3. split; [done|by etrans].
Qed.

(** Whatever order the service lists the expanded records in, flattening
    them cannot panic and yields the same host names. *)
Lemma flatten_Permutation_expand l rs :
  rs ≡ₚ expandRecords l ->
  ∃ names, flattenAzureRmDnsPtrRecords (Some rs) = Normal names ∧ names ≡ₚ l.
Proof.
  intros Hp. unfold flattenAzureRmDnsPtrRecords; simpl.
  destruct (appendPtrdnames_Permutation _ _ [] l (symmetry Hp)
              (appendPtrdnames_expand [] l)) as (r2 & Hr2 & Hperm).
  exists r2. split; [done|by symmetry].
Qed.

(** Expansion of a set followed by flattening and conversion back to a set
    gives the set back, also when the list was reordered in between. *)
Lemma flatten_expand_set (xs : gset string) rs :
  rs ≡ₚ expandRecords (elements xs) ->
  ∃ names, flattenAzureRmDnsPtrRecords (Some rs) = Normal names
           ∧ list_to_set names = xs.
Proof.
  intros Hp. destruct (flatten_Permutation_expand _ _ Hp) as (names & Hf & Hperm).
  exists names. split; [done|].
  apply set_eq. intros x. rewrite elem_of_list_to_set, Hperm. apply elem_of_elements.
Qed.

(** ** The entry points, step by step *)

Section Running.
Context {S : Type} `{DnsService S}.
Variable parse : string -> ResourceID + string.

Local Abbreviation Read := (resourceArmDnsPtrRecordRead parse).
Local Abbreviation CreateOrUpdate := (resourceArmDnsPtrRecordCreateOrUpdate parse).
Local Abbreviation Delete := (resourceArmDnsPtrRecordDelete parse).

Lemma run_bind {A B} (m : M S A) (f : A -> M S B) (w : World S) :
  run (m ≫= f) w =
  match run m w with
  | (Normal a, w') => run (f a) w'
  | (Panicked msg, w') => (Panicked msg, w')
  end.
Proof. done. Qed.

Lemma run_set (k : string) (g : GoValue) (w : World S) d e :
  Set_ (data w) k g = (d, e) ->
  run (set k g) w = (Normal e, mkWorld d (remote w) (calls w)).
Proof. intros Hs. unfold run, set. by rewrite Hs. Qed.

Lemma Set_string d k s :
  schemaType k = Some TypeString -> Set_ d k (GString s) = (store d k (VString s), None).
Proof. intros Hk. unfold Set_. by rewrite Hk. Qed.

Lemma Set_strings d k l :
  schemaType k = Some TypeSet ->
  Set_ d k (GStrings l) = (store d k (VSet (list_to_set l)), None).
Proof. intros Hk. unfold Set_. by rewrite Hk. Qed.

Lemma Set_stringMap d k m :
  schemaType k = Some TypeMap -> Set_ d k (GStringMap m) = (store d k (VMap m), None).
Proof. intros Hk. unfold Set_. by rewrite Hk. Qed.

Lemma Set_ptr_ttl d (p : option Z) :
  Set_ d "ttl" (ptr GInt p) = (write d "ttl" (VInt <$> p), None).
Proof. by destruct p. Qed.

Lemma Set_ptr_etag d (p : option string) :
  Set_ d "etag" (ptr GString p) = (write d "etag" (VString <$> p), None).
Proof. by destruct p. Qed.

Ltac step_set :=
  rewrite run_bind;
  erewrite run_set
    by first [ by apply Set_string | by apply Set_strings | by apply Set_stringMap
             | apply Set_ptr_ttl | apply Set_ptr_etag ].

Lemma expand_run (w : World S) :
  run expandAzureRmDnsPtrRecords w
  = (Normal (expandRecords (elements (desiredRecords (data w))), None), w).
Proof.
  unfold run, expandAzureRmDnsPtrRecords, mbind, M_bind, get, liftR.
  by rewrite assertSet_Get.
Qed.

(** [CreateOrUpdate] up to the point where it hands over to [Read]. *)
Lemma CreateOrUpdate_run (w : World S) :
  run CreateOrUpdate w =
  let '(resp, err, s) :=
    svcCreateOrUpdate (desiredResourceGroup (data w)) (desiredZone (data w))
      (desiredName (data w)) PTR (desiredParameters (data w)) (knownEtag (data w)) ""
      (remote w) in
  match err with
  | Some e =>
      (Normal (Some (Errorf RemoteError e)),
       mkWorld (data w) s (calls w ++ [upsertCall (data w)]))
  | None =>
      match ID resp with
      | None =>
          (Normal (Some (errNoID (desiredName (data w)) (desiredResourceGroup (data w)))),
           mkWorld (data w) s (calls w ++ [upsertCall (data w)]))
      | Some id =>
          run Read (mkWorld (SetId_ (data w) id) s (calls w ++ [upsertCall (data w)]))
      end
  end.
Proof.
  unfold run, resourceArmDnsPtrRecordCreateOrUpdate.
  unfold mbind at 1 2 3 4 5 6 7 8 9 10 11 12 13 14.
  unfold M_bind, get, liftR, compose; simpl.
  rewrite !assertString_Get, assertInt_Get, assertMap_Get by done.
  pose proof (expand_run w) as He. unfold run in He. rewrite He.
  unfold dnsCreateOrUpdate; simpl.
  fold (desiredName (data w)) (desiredResourceGroup (data w)) (desiredZone (data w))
    (desiredTTL (data w)) (knownEtag (data w)) (desiredTags (data w)).
  fold (desiredParameters (data w)).
  destruct (svcCreateOrUpdate _ _ _ _ _ _ _ _) as [[resp [e|]] s]; simpl; [done|].
  destruct (ID resp) as [id|]; [|done].
  done.
Qed.

Lemma Read_parse_error (w : World S) msg :
  parse (Id (data w)) = inr msg ->
  run Read w = (Normal (Some (Errorf ParseError msg)), w).
Proof.
  intros Hp. unfold resourceArmDnsPtrRecordRead.
  rewrite run_bind. unfold getId at 1, run at 1. by rewrite Hp.
Qed.

(** [Read] on an identifier that parses: one lookup, then the three ways
    it can end. *)
Lemma Read_run (w : World S) id :
  parse (Id (data w)) = inl id ->
  run Read w =
  let '(resp, err, s) :=
    svcGet (ResourceGroup id) (zoneOf id) (nameOf id) PTR (remote w) in
  let log := calls w ++ [getCall id] in
  match err with
  | Some e =>
      (Normal (Some (errReading (nameOf id) (Errorf RemoteError e))),
       mkWorld (data w) s log)
  | None =>
      if decide (StatusCode resp = StatusNotFound) then
        (Normal None, mkWorld (SetId_ (data w) "") s log)
      else
        match Properties resp with
        | None => (Panicked nilDereference, mkWorld (identityBack (data w) id) s log)
        | Some props =>
            match flattenAzureRmDnsPtrRecords (PtrRecords props) with
            | Panicked msg =>
                (Panicked msg,
                 mkWorld (tokensBack (identityBack (data w) id) resp props) s log)
            | Normal names =>
                (Normal None, mkWorld (readBack (data w) id resp props names) s log)
            end
        end
  end.
Proof.
  intros Hp. unfold resourceArmDnsPtrRecordRead.
  rewrite run_bind. unfold getId at 1, run at 1. rewrite Hp.
  fold (nameOf id) (zoneOf id).
  rewrite run_bind. unfold dnsGet at 1, run at 1.
  destruct (svcGet _ _ _ _ _) as [[resp [e|]] s]; simpl; [done|].
  case_decide; [done|].
  do 3 step_set.
  rewrite run_bind. unfold liftR at 1, run at 1.
  destruct (Properties resp) as [props|]; simpl; [|done].
  do 2 step_set.
  rewrite run_bind. unfold liftR at 1, run at 1.
  destruct (flattenAzureRmDnsPtrRecords _) as [names|msg]; [|done].
  step_set.
  unfold flattenAndSetTags. rewrite run_bind. step_set.
  done.
Qed.

Lemma Delete_parse_error (w : World S) msg :
  parse (Id (data w)) = inr msg ->
  run Delete w = (Normal (Some (Errorf ParseError msg)), w).
Proof.
  intros Hp. unfold resourceArmDnsPtrRecordDelete.
  rewrite run_bind. unfold getId at 1, run at 1. by rewrite Hp.
Qed.

Lemma Delete_run (w : World S) id :
  parse (Id (data w)) = inl id ->
  run Delete w =
  let '(status, err, s) :=
    svcDelete (ResourceGroup id) (zoneOf id) (nameOf id) PTR "" (remote w) in
  (Normal (if decide (status = StatusOK) then None
           else Some (errDeleting (nameOf id) (asRemote err))),
   mkWorld (data w) s (calls w ++ [deleteCall id])).
Proof.
  intros Hp. unfold resourceArmDnsPtrRecordDelete.
  rewrite run_bind. unfold getId at 1, run at 1. rewrite Hp.
  fold (nameOf id) (zoneOf id).
  rewrite run_bind. unfold dnsDelete at 1, run at 1.
  destruct (svcDelete _ _ _ _ _ _) as [[status err] s]; simpl.
  by repeat case_decide.
Qed.

(** ** What [Read] can do to the log and which errors it can return *)

Lemma Read_calls (w : World S) :
  ∃ later, calls (snd (run Read w)) = calls w ++ later
           ∧ Forall (fun c => isUpsert c = false) later.
Proof.
  destruct (parse (Id (data w))) as [id|msg] eqn:Hp.
  - exists [getCall id]. rewrite (Read_run _ _ Hp).
    destruct (svcGet _ _ _ _ _) as [[resp [e|]] s]; simpl.
    { split; [done|]. by repeat constructor. }
    split; [|by repeat constructor].
    case_decide; [done|].
    destruct (Properties resp) as [props|]; [|done].
    by destruct (flattenAzureRmDnsPtrRecords _).
  - exists []. rewrite (Read_parse_error _ _ Hp); simpl.
    by rewrite app_nil_r.
Qed.

Lemma Read_error_kind (w : World S) e :
  fst (run Read w) = Normal (Some e) ->
  kind e = ParseError ∧ (∃ msg, parse (Id (data w)) = inr msg) ∨ kind e = RemoteError.
Proof.
  destruct (parse (Id (data w))) as [id|msg] eqn:Hp.
  - rewrite (Read_run _ _ Hp).
    destruct (svcGet _ _ _ _ _) as [[resp [e'|]] s]; simpl.
    { intros [= <-]. by right. }
    case_decide; [done|].
    destruct (Properties resp) as [props|]; [|done].
    by destruct (flattenAzureRmDnsPtrRecords _).
  - rewrite (Read_parse_error _ _ Hp); simpl. intros [= <-]. left. eauto.
Qed.

(** ** Read: not found, and errors of the lookup *)

(** When the lookup answers 404 and no error, [Read] reports the record
    absent: it clears the identity and returns no error. *)
Lemma Read_not_found (w : World S) id resp s :
  parse (Id (data w)) = inl id ->
  Returns (remote w) id resp s ->
  StatusCode resp = StatusNotFound ->
  run Read w = (Normal None, mkWorld (SetId_ (data w) "") s (calls w ++ [getCall id])).
Proof.
  intros Hp Hg Hs. rewrite (Read_run _ _ Hp). unfold Returns in Hg. rewrite Hg.
  by case_decide.
Qed.

(** C1, where the code departs from it.  The error of the lookup is tested
    before its status: when the lookup answers with an error, [Read] returns
    that error wrapped [errReading] and changes nothing in the resource
    data, whatever the status is.  With the status "not found" the record is
    therefore not reported absent and its identity is not cleared. *)
Theorem Read_not_found_with_error (w : World S) id resp e s :
  parse (Id (data w)) = inl id ->
  svcGet (ResourceGroup id) (zoneOf id) (nameOf id) PTR (remote w) = (resp, Some e, s) ->
  StatusCode resp = StatusNotFound ->
  run Read w
  = (Normal (Some (errReading (nameOf id) (Errorf RemoteError e))),
     mkWorld (data w) s (calls w ++ [getCall id])).
Proof.
  intros Hp Hg _. rewrite (Read_run _ _ Hp). by rewrite Hg.
Qed.

(** An error of the lookup is returned as a remote error, for every
    status. *)
Lemma Read_lookup_error (w : World S) id resp e s :
  parse (Id (data w)) = inl id ->
  svcGet (ResourceGroup id) (zoneOf id) (nameOf id) PTR (remote w) = (resp, Some e, s) ->
  ∃ err, fst (run Read w) = Normal (Some err) ∧ kind err = RemoteError
         ∧ Error err = "Error reading DNS PTR record " +:+ nameOf id +:+ ": " +:+ e.
Proof.
  intros Hp Hg. rewrite (Read_run _ _ Hp), Hg. eauto.
Qed.

(** ** Create and update *)

(** The log after [CreateOrUpdate]: the upsert, then no further upsert. *)
Lemma CreateOrUpdate_calls (w : World S) :
  ∃ later,
    calls (snd (run CreateOrUpdate w)) = calls w ++ upsertCall (data w) :: later
    ∧ Forall (fun c => isUpsert c = false) later.
Proof.
  rewrite CreateOrUpdate_run.
  destruct (svcCreateOrUpdate _ _ _ _ _ _ _ _) as [[resp [e|]] s]; simpl.
  { exists []. by split. }
  destruct (ID resp) as [id|]; [|exists []; by split].
  destruct (Read_calls (mkWorld (SetId_ (data w) id) s (calls w ++ [upsertCall (data w)])))
    as (later & Hc & Hl).
  exists later. split; [|done].
  rewrite Hc; simpl. by rewrite <- app_assoc.
Qed.

(** C7.  For every resource data, [CreateOrUpdate] sends exactly one upsert:
    the log grows by one upsert call, which carries the resource group, the
    zone and the name of the desired record, the record type "PTR", the
    properties assembled from the tags, the ttl and the expanded records,
    the entity tag held in the resource data and an empty if-none-match
    token; whatever is sent after it is not an upsert. *)
Theorem CreateOrUpdate_one_upsert (w : World S) :
  let d := data w in
  ∃ later,
    calls (snd (run CreateOrUpdate w))
    = calls w ++
      CallCreateOrUpdate (desiredResourceGroup d) (desiredZone d) (desiredName d) "PTR"
        (mkRecordSet 0 None (Some (desiredName d)) None
           (Some (mkRecordSetProperties (expandTags (desiredTags d))
                    (Some (desiredTTL d))
                    (Some (expandRecords (elements (desiredRecords d)))))))
        (knownEtag d) ""
      :: later
    ∧ Forall (fun c => isUpsert c = false) later.
Proof. exact (CreateOrUpdate_calls w). Qed.

(** C8.  When the upsert is answered without error: a response without an
    identifier makes [CreateOrUpdate] return the protocol error [errNoID]
    and leaves the resource data, identity included, as it was; a response
    with an identifier makes it store that identifier as the identity and
    run [Read], whose outcome is the outcome of [CreateOrUpdate]. *)
Theorem CreateOrUpdate_after_upsert (w : World S) resp s :
  svcCreateOrUpdate (desiredResourceGroup (data w)) (desiredZone (data w))
    (desiredName (data w)) PTR (desiredParameters (data w)) (knownEtag (data w)) ""
    (remote w) = (resp, None, s) ->
  match ID resp with
  | None =>
      run CreateOrUpdate w
      = (Normal (Some (errNoID (desiredName (data w)) (desiredResourceGroup (data w)))),
         mkWorld (data w) s (calls w ++ [upsertCall (data w)]))
      ∧ kind (errNoID (desiredName (data w)) (desiredResourceGroup (data w))) = ProtocolError
  | Some id =>
      run CreateOrUpdate w
      = run Read (mkWorld (SetId_ (data w) id) s (calls w ++ [upsertCall (data w)]))
      ∧ Id (SetId_ (data w) id) = id
  end.
Proof.
  intros Hu. rewrite CreateOrUpdate_run, Hu; simpl.
  by destruct (ID resp).
Qed.

Lemma CreateOrUpdate_error_kind (w : World S) e :
  fst (run CreateOrUpdate w) = Normal (Some e) ->
  kind e = RemoteError ∨ kind e = ProtocolError ∨ kind e = ParseError.
Proof.
  rewrite CreateOrUpdate_run.
  destruct (svcCreateOrUpdate _ _ _ _ _ _ _ _) as [[resp [e'|]] s]; simpl.
  { intros [= <-]. by left. }
  destruct (ID resp) as [id|]; simpl.
  - intros He. destruct (Read_error_kind _ _ He) as [[-> _]| ->]; auto.
  - intros [= <-]. right. by left.
Qed.

(** C2, as the code has it.  [CreateOrUpdate] makes no presence check: when
    name, resource_group_name, zone_name or ttl is missing from the resource
    data, [d.Get] yields the zero value of the attribute, the upsert is sent
    with it, and no validation error is returned. *)
Theorem CreateOrUpdate_missing_field (w : World S) k t :
  (k, t) ∈ [("name", TypeString); ("resource_group_name", TypeString);
            ("zone_name", TypeString); ("ttl", TypeInt)] ->
  attrs (data w) !! k = None ->
  Get (data w) k = zeroValue t
  ∧ (∃ later, calls (snd (run CreateOrUpdate w))
              = calls w ++ upsertCall (data w) :: later)
  ∧ ∀ msg, fst (run CreateOrUpdate w) ≠ Normal (Some (Errorf ValidationError msg)).
Proof.
  intros Hk Hnone. split; [|split].
  - apply Get_absent; [|done].
    repeat (apply elem_of_cons in Hk as [[= -> ->]|Hk]; [done|]).
    by apply elem_of_nil in Hk.
  - destruct (CreateOrUpdate_calls w) as (later & Hc & _). eauto.
  - intros msg He. apply CreateOrUpdate_error_kind in He. simpl in He.
    by destruct He as [|[|]].
Qed.

(** ** Delete *)

Lemma Delete_keeps_data (w : World S) : data (snd (run Delete w)) = data w.
Proof.
  destruct (parse (Id (data w))) as [id|msg] eqn:Hp.
  - rewrite (Delete_run _ _ Hp). by destruct (svcDelete _ _ _ _ _ _) as [[??]?].
  - by rewrite (Delete_parse_error _ _ Hp).
Qed.

(** C3.  Once the identifier is parsed and the delete call answered with
    [status] and the error value [err]: [Delete] returns no error exactly
    when the status is OK (200), whatever [err] is; for any other status it
    returns a remote error whose message is made of the record name and of
    [err]; the resource data is never changed. *)
Theorem Delete_status (w : World S) id status err s :
  parse (Id (data w)) = inl id ->
  svcDelete (ResourceGroup id) (zoneOf id) (nameOf id) PTR "" (remote w) = (status, err, s) ->
  (fst (run Delete w) = Normal None ↔ status = StatusOK)
  ∧ (status ≠ StatusOK ->
     ∃ e, fst (run Delete w) = Normal (Some e) ∧ kind e = RemoteError
          ∧ Error e = "Error deleting DNS PTR Record " +:+ nameOf id +:+ ": "
                      +:+ fmt_s (asRemote err))
  ∧ data (snd (run Delete w)) = data w.
Proof.
  intros Hp Hd. split; [|split]; [| |apply Delete_keeps_data].
  - rewrite (Delete_run _ _ Hp), Hd; simpl. by case_decide.
  - intros Hs. rewrite (Delete_run _ _ Hp), Hd; simpl.
    case_decide; [done|]. eauto.
Qed.

(** ** Round trips *)

(** [Read] of a record that the service gives back as desired. *)
Lemma Read_echo (w : World S) d0 id resp s :
  parse (Id (data w)) = inl id ->
  Returns (remote w) id resp s ->
  Echoes d0 resp ->
  ∃ props names,
    Properties resp = Some props
    ∧ TTL props = Some (desiredTTL d0)
    ∧ list_to_set names = desiredRecords d0
    ∧ run Read w
      = (Normal None,
         mkWorld (readBack (data w) id resp props names) s (calls w ++ [getCall id])).
Proof.
  intros Hp Hg (Hfound & props & rs & Hprops & Httl & Hrs & Hperm).
  destruct (flatten_expand_set _ _ Hperm) as (names & Hflat & Hset).
  exists props, names. repeat split; try done.
  rewrite (Read_run _ _ Hp). unfold Returns in Hg. rewrite Hg.
  case_decide; [done|]. by rewrite Hprops, Hrs, Hflat.
Qed.

(** [CreateOrUpdate] against a service that accepts the upsert and then
    gives the record back. *)
Lemma CreateOrUpdate_echo (w : World S) d0 opaque id s1 resp s2 :
  Upserts parse (data w) (knownEtag (data w)) (remote w) opaque id s1 ->
  Returns s1 id resp s2 ->
  Echoes d0 resp ->
  ∃ props names,
    Properties resp = Some props
    ∧ TTL props = Some (desiredTTL d0)
    ∧ list_to_set names = desiredRecords d0
    ∧ run CreateOrUpdate w
      = (Normal None,
         mkWorld (readBack (SetId_ (data w) opaque) id resp props names) s2
           (calls w ++ [upsertCall (data w); getCall id])).
Proof.
  intros (resp1 & Hu & Hid & Hp) Hg He.
  destruct (Read_echo (mkWorld (SetId_ (data w) opaque) s1 (calls w ++ [upsertCall (data w)]))
              d0 id resp s2 Hp Hg He) as (props & names & Hprops & Httl & Hset & Hr).
  exists props, names. repeat split; try done.
  rewrite CreateOrUpdate_run, Hu, Hid, Hr; simpl.
  by rewrite <- app_assoc.
Qed.

(** C4.  Against a service that stores what it is sent, for every resource
    data: [CreateOrUpdate] succeeds and leaves the desired host names and
    ttl in the resource data, and a [Read] that follows, from whatever
    attributes the resource data then holds under the stored identity,
    succeeds and writes the desired set of host names and the desired ttl:
    they are what the upsert carried and what the lookup gave back.  The
    conversions underneath: the expanded set, flattened and turned into a
    set again, is the set. *)
Theorem CreateOrUpdate_then_Read (w : World S) :
  Stores parse (remote w) (desiredResourceGroup (data w)) (desiredZone (data w))
    (desiredName (data w)) (knownEtag (data w)) ->
  (∃ w1,
     run CreateOrUpdate w = (Normal None, w1)
     ∧ desiredRecords (data w1) = desiredRecords (data w)
     ∧ desiredTTL (data w1) = desiredTTL (data w)
     ∧ ∀ d' log,
         Id d' = Id (data w1) ->
         ∃ w2,
           run Read (mkWorld d' (remote w1) log) = (Normal None, w2)
           ∧ desiredRecords (data w2) = desiredRecords (data w)
           ∧ desiredTTL (data w2) = desiredTTL (data w))
  ∧ ∃ names,
      flattenAzureRmDnsPtrRecords
        (Some (expandRecords (elements (desiredRecords (data w))))) = Normal names
      ∧ list_to_set names = desiredRecords (data w).
Proof.
  intros Hstores. split; [|by apply flatten_expand_set].
  destruct (Hstores (desiredParameters (data w)) _ eq_refl)
    as (resp & opaque & id & s1 & P & Hu & Hid & Hp & HP & Hkeeps).
  assert (Hecho : ∀ resp', GivesBack
            (mkRecordSetProperties (expandTags (desiredTags (data w)))
               (Some (desiredTTL (data w)))
               (Some (expandRecords (elements (desiredRecords (data w)))))) resp' ->
            Echoes (data w) resp').
  { intros resp' (Hfound & p & Hprops & Httl & Hrs). split; [done|].
    simpl in Httl, Hrs. destruct (PtrRecords p) as [rs|] eqn:Hp'; [|done].
    by exists p, rs. }
  destruct (Hkeeps s1 HP) as (resp2 & s2 & Hg2 & HP2 & Hback2).
  destruct (CreateOrUpdate_echo w (data w) opaque id s1 resp2 s2)
    as (props2 & names2 & _ & Httl2 & Hset2 & Hrun1);
    [by exists resp|exact Hg2|by apply Hecho|].
  eexists. split; [exact Hrun1|]. cbn [data remote].
  split; [by rewrite readBack_records|]. split; [by rewrite readBack_ttl, Httl2|].
  intros d' log Hd'. rewrite readBack_Id in Hd'. simpl in Hd'.
  destruct (Hkeeps s2 HP2) as (resp3 & s3 & Hg3 & _ & Hback3).
  destruct (Read_echo (mkWorld d' s2 log) (data w) id resp3 s3)
    as (props3 & names3 & _ & Httl3 & Hset3 & Hrun2);
    [by rewrite <- Hp; simpl; rewrite Hd'|exact Hg3|by apply Hecho|].
  eexists. split; [exact Hrun2|]. cbn [data].
  by rewrite readBack_records, readBack_ttl, Httl3.
Qed.

(** C6.  Two invocations in a row on the same desired record, against a
    service that accepts each upsert and gives the record back on the lookup
    that follows.  Both succeed; the second upsert carries the same
    resource group, zone, name, type and properties as the first and differs
    from it at most in the entity tag; and the record read back after the
    second invocation has the same host names, ttl and tags as after the
    first, those of the desired record. *)
Theorem CreateOrUpdate_twice (w : World S)
    opaque1 id1 s1 resp1 s2 opaque2 id2 s3 resp2 s4 :
  Upserts parse (data w) (knownEtag (data w)) (remote w) opaque1 id1 s1 ->
  Names id1 (data w) ->
  Returns s1 id1 resp1 s2 -> Echoes (data w) resp1 -> EchoesTags (data w) resp1 ->
  Upserts parse (data w) (default "" (Etag resp1)) s2 opaque2 id2 s3 ->
  Returns s3 id2 resp2 s4 -> Echoes (data w) resp2 -> EchoesTags (data w) resp2 ->
  ∃ w1 w2,
    run CreateOrUpdate w = (Normal None, w1)
    ∧ run CreateOrUpdate w1 = (Normal None, w2)
    ∧ observed (data w1) = observed (data w)
    ∧ observed (data w2) = observed (data w1)
    ∧ calls w2
      = calls w ++
        [ upsertCall (data w); getCall id1;
          CallCreateOrUpdate (desiredResourceGroup (data w)) (desiredZone (data w))
            (desiredName (data w)) PTR (desiredParameters (data w))
            (default "" (Etag resp1)) "";
          getCall id2 ].
Proof.
  intros Hu1 (Hrg & Hzone & Hname) Hg1 He1 (props1' & Hprops1' & Htags1)
         Hu2 Hg2 He2 (props2' & Hprops2' & Htags2).
  destruct (CreateOrUpdate_echo w (data w) _ _ _ _ _ Hu1 Hg1 He1)
    as (props1 & names1 & Hprops1 & Httl1 & Hset1 & Hrun1).
  assert (props1' = props1) as -> by congruence.
  set (d1 := readBack (SetId_ (data w) opaque1) id1 resp1 props1 names1) in *.
  assert (Hn : desiredName d1 = desiredName (data w))
    by (subst d1; by rewrite readBack_name).
  assert (Hr : desiredResourceGroup d1 = desiredResourceGroup (data w))
    by (subst d1; by rewrite readBack_resourceGroup).
  assert (Hz : desiredZone d1 = desiredZone (data w))
    by (subst d1; by rewrite readBack_zone).
  assert (Ht : desiredTTL d1 = desiredTTL (data w))
    by (subst d1; by rewrite readBack_ttl, Httl1).
  assert (Hs : desiredRecords d1 = desiredRecords (data w))
    by (subst d1; by rewrite readBack_records).
  assert (Hg : desiredTags d1 = desiredTags (data w))
    by (subst d1; by rewrite readBack_tags).
  assert (Het : knownEtag d1 = default "" (Etag resp1))
    by (subst d1; by rewrite readBack_etag).
  assert (Hparams : desiredParameters d1 = desiredParameters (data w)).
  { unfold desiredParameters. by rewrite Hn, Ht, Hs, Hg. }
  set (w1 := mkWorld d1 s2 (calls w ++ [upsertCall (data w); getCall id1])) in *.
  assert (Hu2' : Upserts parse (data w1) (knownEtag (data w1)) (remote w1) opaque2 id2 s3).
  { destruct Hu2 as (r & Hu2 & Hid2 & Hp2). exists r. simpl.
    by rewrite Hr, Hz, Hn, Hparams, Het. }
  destruct (CreateOrUpdate_echo w1 (data w) _ _ _ _ _ Hu2' Hg2 He2)
    as (props2 & names2 & Hprops2 & Httl2 & Hset2 & Hrun2).
  assert (props2' = props2) as -> by congruence.
  eexists _, _. split; [exact Hrun1|]. split; [exact Hrun2|]. simpl.
  split; [|split].
  - unfold observed. by rewrite Hs, Ht, Hg.
  - unfold observed.
    by rewrite readBack_records, readBack_ttl, readBack_tags, Hs, Ht, Hg, Hset2, Httl2, Htags2.
  - rewrite <- app_assoc; simpl. unfold upsertCall at 2.
    by rewrite Hr, Hz, Hn, Hparams, Het.
Qed.

(** ** The record helpers *)

(** C9.  For every resource data, [expandAzureRmDnsPtrRecords] returns, never
    panics, changes nothing, and the error it returns is nil. *)
Theorem expand_error_is_nil (w : World S) :
  ∃ records, run expandAzureRmDnsPtrRecords w = (Normal (records, None), w).
Proof. eexists. apply expand_run. Qed.

End Running.

(** ** Identifiers of the service's shape *)







Section Identifiers.
Context {S : Type} `{DnsService S}.



End Identifiers.

(** C10, where the code departs from it.  On the nil pointer,
    [flattenAzureRmDnsPtrRecords] panics: [len( *records)] dereferences its
    argument before the nil test is reached. *)
Theorem flatten_nil_panics :
  flattenAzureRmDnsPtrRecords None = Panicked nilDereference.
Proof. reflexivity. Qed.

(** On a list, flattening returns exactly when every record has its name. *)
Lemma flatten_total (rs : list PtrRecord) :
  Forall (fun r => is_Some (Ptrdname r)) rs ->
  ∃ names, flattenAzureRmDnsPtrRecords (Some rs) = Normal names.
Proof.
  unfold flattenAzureRmDnsPtrRecords; simpl. generalize (@nil string).
  induction rs as [|r rs IH]; intros acc Hall; simpl; [eauto|].
  inversion Hall as [|? ? [n Hn] Hrest]; subst. rewrite Hn; simpl. by apply IH.
Qed.

(** * The properties on the example record

    The entry points run against the in-memory service and the reference
    parser, on the record of the specification's example. *)

Lemma exampleID_parses : parseAzureResourceIDModel exampleID = inl exampleResourceID.
Proof. vm_compute. reflexivity. Defined.

Lemma example_created : run CreateOrUpdate0 exampleWorld = (Normal None, createdWorld).
Proof. vm_compute. reflexivity. Defined.

(** The service accepts the example record and names it [exampleID]. *)
Lemma example_Upserts :
  Upserts parseAzureResourceIDModel exampleData "" emptyDns exampleID exampleResourceID
    (remote createdWorld).
Proof.
  eexists. split; [|split; [|apply exampleID_parses]].
  - vm_compute. reflexivity.
  - reflexivity.
Defined.

Lemma example_Returns :
  ∃ resp, Returns (remote createdWorld) exampleResourceID resp (remote createdWorld)
          ∧ Echoes exampleData resp ∧ EchoesTags exampleData resp
          ∧ Etag resp = Some "0".
Proof.
  eexists. split; [vm_compute; reflexivity|]. split; [|split; [|reflexivity]].
  - split; [by vm_compute|]. eexists _, _. repeat split; reflexivity.
  - eexists. split; [reflexivity|]. by vm_compute.
Defined.

(** Reading a record the service does not have: the lookup answers 404 with
    an error, and [Read] returns an error with the identity left in place. *)
Lemma Read_not_found_with_error_witness :
  run Read0 unknownWorld
  = (Normal (Some (errReading "ptr1" (Errorf RemoteError "StatusCode=404 not found"))),
     mkWorld (data unknownWorld) emptyDns [getCall exampleResourceID])
  ∧ Id (data unknownWorld) = exampleID.
Proof.
  split; [|reflexivity].
  apply (Read_not_found_with_error parseAzureResourceIDModel unknownWorld
           exampleResourceID (noRecordSet 404)).
  - apply exampleID_parses.
  - vm_compute. reflexivity.
  - reflexivity.
Defined.

(** C2 fails on the example record without its name: the upsert is sent,
    with the empty name, and the error that comes back is not a validation
    error. *)
Lemma CreateOrUpdate_nameless_dispatches :
  attrs (data namelessWorld) !! "name" = None
  ∧ desiredName (data namelessWorld) = ""
  ∧ calls (snd (run CreateOrUpdate0 namelessWorld)) = [upsertCall (data namelessWorld)]
  ∧ ¬ ∃ msg, fst (run CreateOrUpdate0 namelessWorld)
             = Normal (Some (Errorf ValidationError msg)).
Proof.
  split; [by vm_compute|]. split; [by vm_compute|]. split; [by vm_compute|].
  intros [msg Hmsg]. vm_compute in Hmsg. discriminate Hmsg.
Qed.

Lemma CreateOrUpdate_missing_field_witness :
  Get (data namelessWorld) "name" = zeroValue TypeString
  ∧ (∃ later, calls (snd (run CreateOrUpdate0 namelessWorld))
              = calls namelessWorld ++ upsertCall (data namelessWorld) :: later)
  ∧ ∀ msg, fst (run CreateOrUpdate0 namelessWorld)
           ≠ Normal (Some (Errorf ValidationError msg)).
Proof.
  apply (CreateOrUpdate_missing_field parseAzureResourceIDModel namelessWorld
           "name" TypeString).
  - constructor.
  - vm_compute. reflexivity.
Defined.

Lemma Delete_status_witness :
  (fst (run Delete0 createdWorld) = Normal None ↔ 200 = StatusOK)
  ∧ data (snd (run Delete0 createdWorld)) = data createdWorld.
Proof.
  destruct (Delete_status parseAzureResourceIDModel createdWorld exampleResourceID
              200 None (mkMemDns ∅ 1)) as (Hiff & _ & Hdata).
  - vm_compute. reflexivity.
  - vm_compute. reflexivity.
  - by split.
Defined.

(** Deleting a record the service does not have is answered 204 without an
    error value: [Delete] returns an error all the same, and the message
    shows how [%s] prints the nil error. *)
Example Delete_no_content :
  fst (run Delete0 unknownWorld)
  = Normal (Some (Errorf RemoteError "Error deleting DNS PTR Record ptr1: %!s(<nil>)")).
Proof. vm_compute. reflexivity. Qed.

Lemma CreateOrUpdate_after_upsert_witness :
  run CreateOrUpdate0 exampleWorld
  = run Read0 (mkWorld (SetId_ exampleData exampleID) (remote createdWorld)
                 [upsertCall exampleData]).
Proof.
  destruct example_Upserts as (resp & Hu & Hid & _).
  generalize (CreateOrUpdate_after_upsert parseAzureResourceIDModel exampleWorld
                resp (remote createdWorld) Hu).
  rewrite Hid. intros [Hrun _]. exact Hrun.
Defined.

(** The in-memory service stores what it is sent. *)
Lemma mem_Stores : Stores parseAzureResourceIDModel emptyDns "rg1" "zone1" "ptr1" "".
Proof.
  intros parameters props Hprops.
  exists (mkRecordSet 201 (Some exampleID) (Some "ptr1") (Some "0") (Some props)),
    exampleID, exampleResourceID,
    (mkMemDns (<[("rg1", "zone1", PTR, "ptr1") := mkStored props "0"]> ∅) 1),
    (fun s => recordSets s !! ("rg1", "zone1", PTR, "ptr1") = Some (mkStored props "0")).
  split; [|split; [done|split; [apply exampleID_parses|split]]].
  - unfold svcCreateOrUpdate, MemDns_service, memCreateOrUpdate.
    cbn [recordSets serial emptyDns]. rewrite lookup_empty.
    rewrite !bool_decide_eq_false_2 by (intros [Hne _]; by apply Hne).
    by rewrite Hprops.
  - cbn [recordSets]. apply lookup_insert_eq.
  - intros s Hs.
    assert (ResourceGroup exampleResourceID = "rg1") as -> by done.
    assert (zoneOf exampleResourceID = "zone1") as -> by (vm_compute; reflexivity).
    assert (nameOf exampleResourceID = "ptr1") as -> by (vm_compute; reflexivity).
    unfold svcGet, MemDns_service, memGet. rewrite Hs.
    eexists _, _. split; [reflexivity|]. split; [exact Hs|].
    split; [done|]. eexists. split; [reflexivity|]. split; [reflexivity|].
    cbn [PtrRecords storedProperties]. destruct (PtrRecords props); simpl; reflexivity.
Defined.

(** After the example record is created, a [Read] from a resource data that
    holds nothing but the identifier brings back its host names and ttl. *)
Lemma CreateOrUpdate_then_Read_witness :
  ∃ w2,
    run CreateOrUpdate0 exampleWorld = (Normal None, createdWorld)
    ∧ run Read0 (mkWorld (mkResourceData exampleID ∅) (remote createdWorld) [])
      = (Normal None, w2)
    ∧ desiredRecords (data w2) = {["host1.example.com"; "host2.example.com"]}
    ∧ desiredTTL (data w2) = 300.
Proof.
  destruct (CreateOrUpdate_then_Read parseAzureResourceIDModel exampleWorld mem_Stores)
    as [(w1 & H1 & _ & _ & Hread) _].
  assert (w1 = createdWorld) as ->.
  { rewrite example_created in H1. congruence. }
  destruct (Hread (mkResourceData exampleID ∅) []) as (w2 & H2 & Hr & Ht).
  - vm_compute. reflexivity.
  - exists w2. split; [exact H1|]. split; [exact H2|]. split; [exact Hr|exact Ht].
Defined.



Lemma example_Names : Names exampleResourceID exampleData.
Proof. repeat split; vm_compute; reflexivity. Defined.

Lemma example_Upserts_again :
  Upserts parseAzureResourceIDModel exampleData "0" (remote createdWorld)
    exampleID exampleResourceID (remote recreatedWorld).
Proof.
  eexists. split; [|split; [|apply exampleID_parses]].
  - vm_compute. reflexivity.
  - reflexivity.
Defined.

Lemma example_Returns_again :
  ∃ resp, Returns (remote recreatedWorld) exampleResourceID resp (remote recreatedWorld)
          ∧ Echoes exampleData resp ∧ EchoesTags exampleData resp.
Proof.
  eexists. split; [vm_compute; reflexivity|]. split.
  - split; [by vm_compute|]. eexists _, _. repeat split; reflexivity.
  - eexists. split; [reflexivity|]. by vm_compute.
Defined.

Lemma CreateOrUpdate_twice_witness :
  ∃ w1 w2,
    run CreateOrUpdate0 exampleWorld = (Normal None, w1)
    ∧ run CreateOrUpdate0 w1 = (Normal None, w2)
    ∧ observed (data w1) = observed exampleData
    ∧ observed (data w2) = observed (data w1).
Proof.
  destruct example_Returns as (resp1 & Hg1 & He1 & Ht1 & Hetag).
  destruct example_Returns_again as (resp2 & Hg2 & He2 & Ht2).
  assert (Hu2 : Upserts parseAzureResourceIDModel (data exampleWorld)
                  (default "" (Etag resp1)) (remote createdWorld)
                  exampleID exampleResourceID (remote recreatedWorld))
    by (rewrite Hetag; apply example_Upserts_again).
  destruct (CreateOrUpdate_twice parseAzureResourceIDModel exampleWorld
              exampleID exampleResourceID (remote createdWorld) resp1 (remote createdWorld)
              exampleID exampleResourceID (remote recreatedWorld) resp2 (remote recreatedWorld)
              example_Upserts example_Names Hg1 He1 Ht1 Hu2 Hg2 He2 Ht2)
    as (w1 & w2 & H1 & H2 & Ho1 & Ho2 & _).
  exists w1, w2. split; [exact H1|]. split; [exact H2|]. split; [exact Ho1|exact Ho2].
Defined.

(** * Further properties of the helpers *)

Lemma appendPtrdnames_Normal acc rs r :
  appendPtrdnames acc rs = Normal r ->
  ∃ names, r = acc ++ names ∧ rs = expandRecords names.
Proof.
  revert acc. induction rs as [|[[n|]] rs IH]; intros acc; simpl; [| |done].
  - intros [= <-]. exists []. by rewrite app_nil_r.
  - intros Hr. destruct (IH _ Hr) as (names & -> & ->).
    exists (n :: names). by rewrite <- app_assoc.
Qed.

Lemma appendPtrdnames_Panicked acc rs m :
  appendPtrdnames acc rs = Panicked m ->
  m = nilDereference ∧ Exists (fun r => Ptrdname r = None) rs.
Proof.
  revert acc. induction rs as [|[[n|]] rs IH]; intros acc; simpl; [done| |].
  - intros Hr. destruct (IH _ Hr) as [-> Hex]. split; [done|]. by right.
  - intros [= <-]. split; [done|]. by left.
Qed.

Lemma flatten_Normal (rs : list PtrRecord) (names : list string) :
  flattenAzureRmDnsPtrRecords (Some rs) = Normal names -> rs = expandRecords names.
Proof.
  unfold flattenAzureRmDnsPtrRecords; simpl. intros Hr.
  by destruct (appendPtrdnames_Normal _ _ _ Hr) as (names' & -> & ->).
Qed.

Lemma flatten_Panicked (records : option (list PtrRecord)) m :
  flattenAzureRmDnsPtrRecords records = Panicked m -> m = nilDereference.
Proof.
  destruct records as [rs|]; [|by intros [= <-]].
  unfold flattenAzureRmDnsPtrRecords; simpl. intros Hm.
  by destruct (appendPtrdnames_Panicked _ _ _ Hm).
Qed.

(** Flattening is the inverse of expansion, in both directions: a record
    list flattens to a list of names exactly when it is the expansion of
    that list, so names keep their order and their number. *)
Theorem flatten_inverts_expand (rs : list PtrRecord) (names : list string) :
  flattenAzureRmDnsPtrRecords (Some rs) = Normal names ↔ rs = expandRecords names.
Proof.
  split; [apply flatten_Normal|].
  intros ->. apply flatten_expand.
Qed.

(** Flattening panics exactly on the nil pointer and on a list in which some
    record has no name. *)
Theorem flatten_panics_iff (records : option (list PtrRecord)) :
  (∃ m, flattenAzureRmDnsPtrRecords records = Panicked m)
  ↔ records = None
    ∨ ∃ rs, records = Some rs ∧ Exists (fun r => Ptrdname r = None) rs.
Proof.
  split.
  - intros [m Hm]. destruct records as [rs|]; [right|by left].
    exists rs. split; [done|].
    unfold flattenAzureRmDnsPtrRecords in Hm; simpl in Hm.
    by destruct (appendPtrdnames_Panicked _ _ _ Hm).
  - intros [->|(rs & -> & Hex)]; [by eexists|].
    destruct (flattenAzureRmDnsPtrRecords (Some rs)) as [names|m] eqn:Hf; [|by eexists].
    apply flatten_Normal in Hf as ->.
    apply Exists_exists in Hex as (r & Hin & Hr).
    unfold expandRecords in Hin. apply list_elem_of_fmap in Hin as (x & -> & _). done.
Qed.

Lemma flatten_Complete (resp : RecordSet) :
  Complete resp ↔
  ∃ props names, Properties resp = Some props
                 ∧ flattenAzureRmDnsPtrRecords (PtrRecords props) = Normal names.
Proof.
  split.
  - intros (props & rs & Hp & Hrs & Hall). exists props.
    destruct (flatten_total rs Hall) as [names Hn]. exists names. by rewrite Hrs.
  - intros (props & names & Hp & Hf). exists props.
    destruct (PtrRecords props) as [rs|]; [|done].
    exists rs. repeat split; try done.
    apply flatten_Normal in Hf as ->.
    unfold expandRecords. apply Forall_fmap, Forall_true. simpl. eauto.
Qed.

(** * Further properties of the entry points *)

Lemma ResourceData_eq d1 d2 : Id d1 = Id d2 -> attrs d1 = attrs d2 -> d1 = d2.
Proof. destruct d1, d2; simpl. congruence. Qed.

Lemma lookup_store d k v k' :
  attrs (store d k v) !! k' = if decide (k = k') then Some v else attrs d !! k'.
Proof. unfold store; cbn [attrs]. apply lookup_insert. Qed.

Lemma lookup_write d k v k' :
  attrs (write d k v) !! k' = if decide (k = k') then v else attrs d !! k'.
Proof.
  destruct v; unfold write, store, clear; cbn [attrs].
  - apply lookup_insert.
  - rewrite lookup_delete. by case_decide.
Qed.

(** What is stored under each key after [Read] has written a record back. *)
Lemma lookup_readBack d id resp props names k :
  attrs (readBack d id resp props names) !! k =
  if decide ("tags" = k) then Some (VMap (default ∅ (Metadata props)))
  else if decide ("records" = k) then Some (VSet (list_to_set names))
  else if decide ("etag" = k) then VString <$> Etag resp
  else if decide ("ttl" = k) then VInt <$> TTL props
  else if decide ("zone_name" = k) then Some (VString (zoneOf id))
  else if decide ("resource_group_name" = k) then Some (VString (ResourceGroup id))
  else if decide ("name" = k) then Some (VString (nameOf id))
  else attrs d !! k.
Proof.
  unfold readBack, tokensBack, identityBack.
  by rewrite !lookup_store, !lookup_write, !lookup_store.
Qed.

(** [readBack] overwrites what an earlier [readBack] of the same response
    wrote. *)
Lemma readBack_idempotent d id resp props names :
  readBack (readBack d id resp props names) id resp props names
  = readBack d id resp props names.
Proof.
  apply ResourceData_eq.
  - by rewrite !readBack_Id.
  - apply map_eq. intros k. rewrite !lookup_readBack. by repeat case_decide.
Qed.

(** [Get] looks at the attributes only. *)
Lemma Get_attrs d d' k : attrs d = attrs d' -> Get d k = Get d' k.
Proof. intros Ha. unfold Get. by rewrite Ha. Qed.

Section Further.
Context {S : Type} `{DnsService S}.
Variable parse : string -> ResourceID + string.

Local Abbreviation Read := (resourceArmDnsPtrRecordRead parse).
Local Abbreviation CreateOrUpdate := (resourceArmDnsPtrRecordCreateOrUpdate parse).
Local Abbreviation Delete := (resourceArmDnsPtrRecordDelete parse).

(** ** Read *)

(** On an identifier that does not parse, [Read] and [Delete] both return
    the parser's error, send nothing to the service and leave the world as
    it is. *)
Theorem unparsable_identifier_is_inert (w : World S) msg :
  parse (Id (data w)) = inr msg ->
  run Read w = (Normal (Some (Errorf ParseError msg)), w)
  ∧ run Delete w = (Normal (Some (Errorf ParseError msg)), w).
Proof.
  intros Hp. split; [by apply Read_parse_error|by apply Delete_parse_error].
Qed.

(** When the lookup answers "not found" and no error, [Read] returns nil,
    empties the identity and leaves every attribute as it was; it has sent
    the one lookup. *)
Theorem Read_absent (w : World S) id resp s :
  parse (Id (data w)) = inl id ->
  svcGet (ResourceGroup id) (zoneOf id) (nameOf id) PTR (remote w) = (resp, None, s) ->
  StatusCode resp = StatusNotFound ->
  ∃ w', run Read w = (Normal None, w')
        ∧ Id (data w') = ""
        ∧ attrs (data w') = attrs (data w)
        ∧ remote w' = s
        ∧ calls w' = calls w ++ [getCall id].
Proof.
  intros Hp Hg Hs. eexists. split; [by apply (Read_not_found parse w id resp s)|].
  done.
Qed.

(** When the lookup answers with an error, whatever its status, [Read]
    returns that error with the record name in front and leaves the
    resource data as it was. *)
Theorem Read_lookup_error_is_inert (w : World S) id resp e s :
  parse (Id (data w)) = inl id ->
  svcGet (ResourceGroup id) (zoneOf id) (nameOf id) PTR (remote w) = (resp, Some e, s) ->
  run Read w
  = (Normal (Some (Errorf RemoteError
                     ("Error reading DNS PTR record " +:+ nameOf id +:+ ": " +:+ e))),
     mkWorld (data w) s (calls w ++ [getCall id])).
Proof. intros Hp Hg. rewrite (Read_run _ _ _ Hp). by rewrite Hg. Qed.

(** A found record is written back whole: the identity stays, the name, the
    resource group and the zone become those of the identifier, ttl and
    entity tag those of the response (0 and the empty string when the
    response has none), and the records the set of the returned names, with
    repetitions and order gone. *)
Theorem Read_found_writes (w : World S) id resp s props names :
  parse (Id (data w)) = inl id ->
  svcGet (ResourceGroup id) (zoneOf id) (nameOf id) PTR (remote w) = (resp, None, s) ->
  StatusCode resp ≠ StatusNotFound ->
  Properties resp = Some props ->
  PtrRecords props = Some (expandRecords names) ->
  ∃ w', run Read w = (Normal None, w')
        ∧ Id (data w') = Id (data w)
        ∧ Get (data w') "name" = VString (nameOf id)
        ∧ Get (data w') "resource_group_name" = VString (ResourceGroup id)
        ∧ Get (data w') "zone_name" = VString (zoneOf id)
        ∧ Get (data w') "ttl" = VInt (default 0 (TTL props))
        ∧ Get (data w') "etag" = VString (default "" (Etag resp))
        ∧ Get (data w') "records" = VSet (list_to_set names)
        ∧ remote w' = s
        ∧ calls w' = calls w ++ [getCall id].
Proof.
  intros Hp Hg Hs Hprops Hrs.
  exists (mkWorld (readBack (data w) id resp props names) s (calls w ++ [getCall id])).
  split.
  { rewrite (Read_run _ _ _ Hp), Hg. case_decide; [done|].
    by rewrite Hprops, Hrs, flatten_expand. }
  cbn [data remote calls]. split; [apply readBack_Id|].
  assert (Hl := lookup_readBack (data w) id resp props names).
  unfold Get. rewrite !Hl.
  repeat split; try done.
  - by destruct (TTL props).
  - by destruct (Etag resp).
Qed.

(** On a found record [Read] never returns an error: it returns nil when
    the response is complete (properties, a record list, a name in every
    record) and panics on a nil dereference otherwise. *)
Theorem Read_found_outcome (w : World S) id resp s :
  parse (Id (data w)) = inl id ->
  svcGet (ResourceGroup id) (zoneOf id) (nameOf id) PTR (remote w) = (resp, None, s) ->
  StatusCode resp ≠ StatusNotFound ->
  (fst (run Read w) = Normal None ↔ Complete resp)
  ∧ (fst (run Read w) = Panicked nilDereference ↔ ¬ Complete resp).
Proof.
  intros Hp Hg Hs. rewrite (Read_run _ _ _ Hp), Hg. case_decide; [done|].
  rewrite flatten_Complete.
  destruct (Properties resp) as [props|]; simpl.
  - destruct (flattenAzureRmDnsPtrRecords (PtrRecords props)) as [names|m] eqn:Hf; simpl.
    + split; split; try done.
      * intros _. by exists props, names.
      * intros Hn. destruct Hn. by exists props, names.
    + rewrite (flatten_Panicked _ _ Hf). split; split; try done.
      * intros (props' & names & [= <-] & Hf'). congruence.
      * intros _ (props' & names & [= <-] & Hf'). congruence.
  - split; split; try done.
    + by intros (? & ? & [=] & _).
    + by intros _ (? & ? & [=] & _).
Qed.

(** The only errors [Read] returns are the parser's and the wrapped error
    of the lookup; the error test on [d.Set("records", ...)] never fires. *)
Theorem Read_errors (w : World S) e :
  fst (run Read w) = Normal (Some e) ->
  (∃ msg, parse (Id (data w)) = inr msg ∧ e = Errorf ParseError msg)
  ∨ (∃ id resp msg s,
       parse (Id (data w)) = inl id
       ∧ svcGet (ResourceGroup id) (zoneOf id) (nameOf id) PTR (remote w) = (resp, Some msg, s)
       ∧ e = errReading (nameOf id) (Errorf RemoteError msg)).
Proof.
  destruct (parse (Id (data w))) as [id|msg] eqn:Hp.
  - rewrite (Read_run _ _ _ Hp).
    destruct (svcGet _ _ _ _ _) as [[resp [e'|]] s] eqn:Hg; simpl.
    { intros [= <-]. right. by exists id, resp, e', s. }
    case_decide; [done|].
    destruct (Properties resp) as [props|]; [|done].
    by destruct (flattenAzureRmDnsPtrRecords _).
  - rewrite (Read_parse_error _ _ _ Hp); simpl. intros [= <-]. left. eauto.
Qed.

(** Reading twice a record that the service answers the same way leaves the
    resource data after the second [Read] exactly as after the first. *)
Theorem Read_twice (w w1 : World S) id resp s1 s2 :
  parse (Id (data w)) = inl id ->
  svcGet (ResourceGroup id) (zoneOf id) (nameOf id) PTR (remote w) = (resp, None, s1) ->
  svcGet (ResourceGroup id) (zoneOf id) (nameOf id) PTR s1 = (resp, None, s2) ->
  StatusCode resp ≠ StatusNotFound ->
  run Read w = (Normal None, w1) ->
  ∃ w2, run Read w1 = (Normal None, w2) ∧ data w2 = data w1.
Proof.
  intros Hp Hg1 Hg2 Hs. rewrite (Read_run _ _ _ Hp), Hg1. case_decide; [done|].
  destruct (Properties resp) as [props|] eqn:Hprops; [|done].
  destruct (flattenAzureRmDnsPtrRecords _) as [names|] eqn:Hf; [|done].
  intros [= <-].
  set (w1 := mkWorld (readBack (data w) id resp props names) s1 (calls w ++ [getCall id])).
  assert (Hp1 : parse (Id (data w1)) = inl id)
    by (unfold w1; cbn [data]; by rewrite readBack_Id).
  exists (mkWorld (readBack (data w1) id resp props names) s2 (calls w1 ++ [getCall id])).
  split; [|apply readBack_idempotent].
  rewrite (Read_run _ _ _ Hp1). cbn [remote w1]. rewrite Hg2.
  case_decide; [done|]. by rewrite Hprops, Hf.
Qed.

(** Whatever the outcome, panic included, [Read] on an identifier that
    parses has sent exactly one call: the lookup of the identifier's resource
    group, zone and name, for the record type "PTR".  A zone or a name that
    the identifier does not have is sent as the empty string. *)
Theorem Read_sends_one_lookup (w : World S) id :
  parse (Id (data w)) = inl id ->
  calls (snd (run Read w))
  = calls w ++ [CallGet (ResourceGroup id) (default "" (Path id !! "dnszones"))
                  (default "" (Path id !! "PTR")) "PTR"].
Proof.
  intros Hp. rewrite (Read_run _ _ _ Hp).
  destruct (svcGet _ _ _ _ _) as [[resp [e|]] s]; simpl; [done|].
  case_decide; [done|].
  destruct (Properties resp) as [props|]; [|done].
  by destruct (flattenAzureRmDnsPtrRecords _).
Qed.

(** [Read] and [Delete] never look at the attributes: on two resource data
    with the same identity, against the same service state, each returns the
    same outcome and leaves the service in the same state. *)
Theorem Read_Delete_ignore_attributes (w w' : World S) :
  Id (data w) = Id (data w') ->
  remote w = remote w' ->
  fst (run Read w) = fst (run Read w')
  ∧ remote (snd (run Read w)) = remote (snd (run Read w'))
  ∧ fst (run Delete w) = fst (run Delete w')
  ∧ remote (snd (run Delete w)) = remote (snd (run Delete w')).
Proof.
  intros Hid Hr.
  destruct (parse (Id (data w))) as [id|msg] eqn:Hp.
  - assert (Hp' : parse (Id (data w')) = inl id) by by rewrite <- Hid.
    rewrite (Read_run _ _ _ Hp), (Read_run _ _ _ Hp').
    rewrite (Delete_run _ _ _ Hp), (Delete_run _ _ _ Hp'). rewrite <- Hr.
    split; [|split].
    + destruct (svcGet _ _ _ _ _) as [[resp [e|]] s]; simpl; [done|].
      case_decide; [done|].
      destruct (Properties resp) as [props|]; [|done].
      by destruct (flattenAzureRmDnsPtrRecords _).
    + destruct (svcGet _ _ _ _ _) as [[resp [e|]] s]; simpl; [done|].
      case_decide; [done|].
      destruct (Properties resp) as [props|]; [|done].
      by destruct (flattenAzureRmDnsPtrRecords _).
    + by destruct (svcDelete _ _ _ _ _ _) as [[status err] s].
  - assert (Hp' : parse (Id (data w')) = inr msg) by by rewrite <- Hid.
    rewrite (Read_parse_error _ _ _ Hp), (Read_parse_error _ _ _ Hp').
    rewrite (Delete_parse_error _ _ _ Hp), (Delete_parse_error _ _ _ Hp').
    done.
Qed.

(** ** Create and update *)

(** The log a world starts with has no influence on [Read]. *)
Lemma Read_log_irrelevant d (s : S) c c' :
  fst (run Read (mkWorld d s c)) = fst (run Read (mkWorld d s c'))
  ∧ data (snd (run Read (mkWorld d s c))) = data (snd (run Read (mkWorld d s c')))
  ∧ remote (snd (run Read (mkWorld d s c))) = remote (snd (run Read (mkWorld d s c'))).
Proof.
  destruct (parse (Id d)) as [id|msg] eqn:Hp.
  - rewrite (Read_run parse (mkWorld d s c) id Hp), (Read_run parse (mkWorld d s c') id Hp).
    cbn [data remote calls].
    destruct (svcGet _ _ _ _ _) as [[resp [e|]] s']; simpl; [done|].
    case_decide; [done|].
    destruct (Properties resp) as [props|]; [|done].
    by destruct (flattenAzureRmDnsPtrRecords _).
  - by rewrite (Read_parse_error parse (mkWorld d s c) msg Hp),
               (Read_parse_error parse (mkWorld d s c') msg Hp).
Qed.

(** When the upsert answers with an error, [CreateOrUpdate] returns that
    error as it is, whatever else the response holds; the resource data,
    identity included, stays as it was and no lookup is sent. *)
Theorem CreateOrUpdate_upsert_error (w : World S) resp e s :
  svcCreateOrUpdate (desiredResourceGroup (data w)) (desiredZone (data w))
    (desiredName (data w)) PTR (desiredParameters (data w)) (knownEtag (data w)) ""
    (remote w) = (resp, Some e, s) ->
  run CreateOrUpdate w
  = (Normal (Some (Errorf RemoteError e)),
     mkWorld (data w) s (calls w ++ [upsertCall (data w)])).
Proof. intros Hu. by rewrite CreateOrUpdate_run, Hu. Qed.

(** The identifier of the response is stored before it is parsed: when it
    does not parse, [CreateOrUpdate] returns the parser's error, yet the
    resource data now carries that identifier; the attributes are untouched
    and no lookup is sent. *)
Theorem CreateOrUpdate_unparsable_identifier (w : World S) resp s opaque msg :
  svcCreateOrUpdate (desiredResourceGroup (data w)) (desiredZone (data w))
    (desiredName (data w)) PTR (desiredParameters (data w)) (knownEtag (data w)) ""
    (remote w) = (resp, None, s) ->
  ID resp = Some opaque ->
  parse opaque = inr msg ->
  run CreateOrUpdate w
  = (Normal (Some (Errorf ParseError msg)),
     mkWorld (mkResourceData opaque (attrs (data w))) s (calls w ++ [upsertCall (data w)])).
Proof.
  intros Hu Hid Hp. rewrite CreateOrUpdate_run, Hu, Hid.
  by rewrite (Read_parse_error parse (mkWorld (SetId_ (data w) opaque) s (calls w ++ [upsertCall (data w)])) msg Hp).
Qed.

(** When the upsert is accepted and the lookup that follows answers "not
    found" without an error, [CreateOrUpdate] returns nil although the
    resource data ends with an empty identity and its attributes as
    before. *)
Theorem CreateOrUpdate_vanished (w : World S) opaque id s1 resp s2 :
  Upserts parse (data w) (knownEtag (data w)) (remote w) opaque id s1 ->
  svcGet (ResourceGroup id) (zoneOf id) (nameOf id) PTR s1 = (resp, None, s2) ->
  StatusCode resp = StatusNotFound ->
  run CreateOrUpdate w
  = (Normal None,
     mkWorld (mkResourceData "" (attrs (data w))) s2
       (calls w ++ [upsertCall (data w); getCall id])).
Proof.
  intros (resp1 & Hu & Hid & Hp) Hg Hs. rewrite CreateOrUpdate_run, Hu, Hid.
  rewrite (Read_run parse (mkWorld (SetId_ (data w) opaque) s1 (calls w ++ [upsertCall (data w)])) id Hp);
    cbn [data remote calls].
  rewrite Hg. case_decide; [|done]. by rewrite <- app_assoc.
Qed.

(** After an accepted upsert exactly one more call is sent, whatever
    [Read] then does: the lookup of the triple parsed from the identifier
    the service returned, not of the desired resource group, zone and
    name. *)
Theorem CreateOrUpdate_lookup_follows_identifier (w : World S) opaque id s1 :
  Upserts parse (data w) (knownEtag (data w)) (remote w) opaque id s1 ->
  calls (snd (run CreateOrUpdate w)) = calls w ++ [upsertCall (data w); getCall id].
Proof.
  intros (resp1 & Hu & Hid & Hp). rewrite CreateOrUpdate_run, Hu, Hid.
  rewrite (Read_run parse (mkWorld (SetId_ (data w) opaque) s1 (calls w ++ [upsertCall (data w)])) id Hp);
    cbn [data remote calls].
  rewrite <- app_assoc.
  destruct (svcGet _ _ _ _ _) as [[resp [e|]] s]; simpl; [done|].
  case_decide; [done|].
  destruct (Properties resp) as [props|]; [|done].
  by destruct (flattenAzureRmDnsPtrRecords _).
Qed.

(** [CreateOrUpdate] never looks at the identity the resource data holds:
    on two resource data with the same attributes, against the same service
    state, it returns the same outcome, leaves the service in the same state
    and the attributes equal. *)
Theorem CreateOrUpdate_ignores_identity (w w' : World S) :
  attrs (data w) = attrs (data w') ->
  remote w = remote w' ->
  fst (run CreateOrUpdate w) = fst (run CreateOrUpdate w')
  ∧ remote (snd (run CreateOrUpdate w)) = remote (snd (run CreateOrUpdate w'))
  ∧ attrs (data (snd (run CreateOrUpdate w))) = attrs (data (snd (run CreateOrUpdate w'))).
Proof.
  intros Ha Hr. rewrite !CreateOrUpdate_run.
  unfold desiredParameters, upsertCall, desiredParameters, desiredResourceGroup,
    desiredZone, desiredName, desiredTTL, desiredTags, desiredRecords, knownEtag.
  rewrite !(Get_attrs (data w) (data w') _ Ha), Hr.
  destruct (svcCreateOrUpdate _ _ _ _ _ _ _ _) as [[resp [e|]] s]; simpl; [done|].
  destruct (ID resp) as [opaque|]; [|done].
  assert (SetId_ (data w) opaque = SetId_ (data w') opaque) as ->
    by (unfold SetId_; by rewrite Ha).
  destruct (Read_log_irrelevant (SetId_ (data w') opaque) s
              (calls w ++ [CallCreateOrUpdate
                 (stringOf (Get (data w') "resource_group_name"))
                 (stringOf (Get (data w') "zone_name")) (stringOf (Get (data w') "name")) PTR
                 (upsertParameters (stringOf (Get (data w') "name"))
                    (expandTags (mapOf (Get (data w') "tags")))
                    (intOf (Get (data w') "ttl"))
                    (expandRecords (elements (setOf (Get (data w') "records")))))
                 (stringOf (Get (data w') "etag")) ""])
              (calls w' ++ [CallCreateOrUpdate
                 (stringOf (Get (data w') "resource_group_name"))
                 (stringOf (Get (data w') "zone_name")) (stringOf (Get (data w') "name")) PTR
                 (upsertParameters (stringOf (Get (data w') "name"))
                    (expandTags (mapOf (Get (data w') "tags")))
                    (intOf (Get (data w') "ttl"))
                    (expandRecords (elements (setOf (Get (data w') "records")))))
                 (stringOf (Get (data w') "etag")) ""]))
    as (H1 & H2 & H3).
  by rewrite H1, H2, H3.
Qed.

(** When the resource data has no records, the upsert is still sent, with a
    record list that is empty but not nil. *)
Theorem CreateOrUpdate_without_records (w : World S) :
  attrs (data w) !! "records" = None ->
  ∃ later,
    calls (snd (run CreateOrUpdate w))
    = calls w ++
      CallCreateOrUpdate (desiredResourceGroup (data w)) (desiredZone (data w))
        (desiredName (data w)) "PTR"
        (mkRecordSet 0 None (Some (desiredName (data w))) None
           (Some (mkRecordSetProperties (expandTags (desiredTags (data w)))
                    (Some (desiredTTL (data w))) (Some []))))
        (knownEtag (data w)) ""
      :: later.
Proof.
  intros Hnone. destruct (CreateOrUpdate_calls parse w) as (later & Hc & _).
  exists later. rewrite Hc. unfold upsertCall, desiredParameters, upsertParameters.
  assert (desiredRecords (data w) = ∅) as ->.
  { unfold desiredRecords. by rewrite (Get_absent _ _ TypeSet). }
  by rewrite elements_empty.
Qed.

(** ** Delete *)

(** On an identifier that parses, [Delete] sends exactly one call: the
    delete of the identifier's resource group, zone and name, for the record
    type "PTR" and with an empty match token.  A zone or a name that the
    identifier does not have is sent as the empty string. *)
Theorem Delete_sends_one_call (w : World S) id :
  parse (Id (data w)) = inl id ->
  calls (snd (run Delete w))
  = calls w ++ [CallDelete (ResourceGroup id) (default "" (Path id !! "dnszones"))
                  (default "" (Path id !! "PTR")) "PTR" ""].
Proof.
  intros Hp. rewrite (Delete_run _ _ _ Hp).
  by destruct (svcDelete _ _ _ _ _ _) as [[status err] s].
Qed.

(** ** Expansion *)

(** The expanded list has one record for each host name of the set and no
    other: as many records as the set has elements, no record twice, and
    every record with its name. *)
Theorem expand_shape (w : World S) :
  ∃ records,
    run expandAzureRmDnsPtrRecords w = (Normal (records, None), w)
    ∧ length records = size (desiredRecords (data w))
    ∧ NoDup records
    ∧ ∀ r, r ∈ records ↔ ∃ x, x ∈ desiredRecords (data w) ∧ r = mkPtrRecord (Some x).
Proof.
  exists (expandRecords (elements (desiredRecords (data w)))).
  split; [apply expand_run|]. unfold expandRecords. split; [|split].
  - by rewrite length_fmap.
  - apply NoDup_fmap_2; [|apply NoDup_elements]. by intros x y [= ->].
  - intros r. rewrite list_elem_of_fmap. split.
    + intros (x & -> & Hx). exists x. by rewrite <- elem_of_elements.
    + intros (x & Hx & ->). exists x. by rewrite elem_of_elements.
Qed.

End Further.

(** * The further properties on concrete inputs *)

Lemma unparsable_identifier_is_inert_witness :
  run Read0 exampleWorld
  = (Normal (Some (Errorf ParseError "Cannot parse Azure Id: ")), exampleWorld)
  ∧ run Delete0 exampleWorld
    = (Normal (Some (Errorf ParseError "Cannot parse Azure Id: ")), exampleWorld).
Proof.
  apply (unparsable_identifier_is_inert parseAzureResourceIDModel exampleWorld).
  vm_compute. reflexivity.
Defined.

Lemma Read_absent_witness :
  ∃ w', run Read0 (cannedWorld accepted (noRecordSet 404, None) (200, None))
        = (Normal None, w')
        ∧ Id (data w') = ""
        ∧ attrs (data w') = attrs exampleData.
Proof.
  destruct (Read_absent parseAzureResourceIDModel
              (cannedWorld accepted (noRecordSet 404, None) (200, None))
              exampleResourceID (noRecordSet 404)
              (mkCanned accepted (noRecordSet 404, None) (200, None)))
    as (w' & Hrun & Hid & Ha & _).
  - apply exampleID_parses.
  - reflexivity.
  - reflexivity.
  - exists w'. split; [exact Hrun|]. split; [exact Hid|exact Ha].
Defined.

Lemma Read_lookup_error_is_inert_witness :
  run Read0 (cannedWorld accepted (noRecordSet 500, Some "StatusCode=500") (200, None))
  = (Normal (Some (Errorf RemoteError "Error reading DNS PTR record ptr1: StatusCode=500")),
     mkWorld (SetId_ exampleData exampleID)
       (mkCanned accepted (noRecordSet 500, Some "StatusCode=500") (200, None))
       [getCall exampleResourceID]).
Proof.
  apply (Read_lookup_error_is_inert parseAzureResourceIDModel
           (cannedWorld accepted (noRecordSet 500, Some "StatusCode=500") (200, None))
           exampleResourceID (noRecordSet 500)).
  - apply exampleID_parses.
  - reflexivity.
Defined.

Lemma Read_found_writes_witness :
  ∃ w', run Read0 (cannedWorld accepted (exampleFound, None) (200, None)) = (Normal None, w')
        ∧ Get (data w') "etag" = VString "etag-7"
        ∧ Get (data w') "records" = VSet {["host1.example.com"; "host2.example.com"]}.
Proof.
  destruct (Read_found_writes parseAzureResourceIDModel
              (cannedWorld accepted (exampleFound, None) (200, None))
              exampleResourceID exampleFound
              (mkCanned accepted (exampleFound, None) (200, None))
              exampleProperties
              ["host2.example.com"; "host1.example.com"; "host2.example.com"])
    as (w' & Hrun & _ & _ & _ & _ & _ & Hetag & Hrecords & _).
  - apply exampleID_parses.
  - reflexivity.
  - by vm_compute.
  - reflexivity.
  - reflexivity.
  - exists w'. split; [exact Hrun|]. split; [exact Hetag|].
    rewrite Hrecords. f_equal.
Defined.

Lemma Read_found_outcome_witness :
  fst (run Read0 (cannedWorld accepted (noRecordSet 200, None) (200, None)))
  = Panicked nilDereference.
Proof.
  apply (Read_found_outcome parseAzureResourceIDModel
           (cannedWorld accepted (noRecordSet 200, None) (200, None))
           exampleResourceID (noRecordSet 200)
           (mkCanned accepted (noRecordSet 200, None) (200, None))).
  - apply exampleID_parses.
  - reflexivity.
  - by vm_compute.
  - by intros (props & rs & [=] & _).
Defined.

Lemma Read_errors_witness :
  ∃ msg, fst (run Read0 unknownWorld)
         = Normal (Some (errReading "ptr1" (Errorf RemoteError msg))).
Proof.
  destruct (Read_errors parseAzureResourceIDModel unknownWorld
              (errReading "ptr1" (Errorf RemoteError "StatusCode=404 not found")))
    as [(msg & Hp & _)|(id & resp & msg & s & Hp & Hg & He)].
  - vm_compute. reflexivity.
  - exfalso. cut (@inl ResourceID string exampleResourceID = inr msg); [discriminate|].
    rewrite <- Hp. symmetry. apply exampleID_parses.
  - exists "StatusCode=404 not found". vm_compute. reflexivity.
Defined.

Lemma Read_twice_witness :
  ∃ w1 w2,
    run Read0 (cannedWorld accepted (exampleFound, None) (200, None)) = (Normal None, w1)
    ∧ run Read0 w1 = (Normal None, w2)
    ∧ data w2 = data w1.
Proof.
  destruct (Read_twice parseAzureResourceIDModel
              (cannedWorld accepted (exampleFound, None) (200, None))
              (snd (run Read0 (cannedWorld accepted (exampleFound, None) (200, None))))
              exampleResourceID exampleFound
              (mkCanned accepted (exampleFound, None) (200, None))
              (mkCanned accepted (exampleFound, None) (200, None)))
    as (w2 & Hrun & Hdata).
  - apply exampleID_parses.
  - reflexivity.
  - reflexivity.
  - by vm_compute.
  - vm_compute. reflexivity.
  - eexists _, w2. split; [|split; [exact Hrun|exact Hdata]].
    vm_compute. reflexivity.
Defined.

(** With an identifier that has no zone and no name, the lookup is sent
    with both empty. *)
Lemma Read_sends_one_lookup_witness :
  calls (snd (run (resourceArmDnsPtrRecordRead (fun _ => inl (mkResourceID "rg1" ∅)))
                (cannedWorld accepted (exampleFound, None) (200, None))))
  = [CallGet "rg1" "" "" "PTR"].
Proof.
  rewrite (Read_sends_one_lookup (fun _ => inl (mkResourceID "rg1" ∅))
             (cannedWorld accepted (exampleFound, None) (200, None))
             (mkResourceID "rg1" ∅)) by reflexivity.
  vm_compute. reflexivity.
Defined.

Lemma Read_Delete_ignore_attributes_witness :
  fst (run Read0 unknownWorld)
  = fst (run Read0 (mkWorld (mkResourceData exampleID ∅) emptyDns []))
  ∧ fst (run Delete0 unknownWorld)
    = fst (run Delete0 (mkWorld (mkResourceData exampleID ∅) emptyDns [])).
Proof.
  destruct (Read_Delete_ignore_attributes parseAzureResourceIDModel unknownWorld
              (mkWorld (mkResourceData exampleID ∅) emptyDns []) eq_refl eq_refl)
    as (Hr & _ & Hd & _).
  split; [exact Hr|exact Hd].
Defined.

Lemma CreateOrUpdate_upsert_error_witness :
  run CreateOrUpdate0
    (cannedWorld (noRecordSet 409, Some "StatusCode=409") (exampleFound, None) (200, None))
  = (Normal (Some (Errorf RemoteError "StatusCode=409")),
     mkWorld (SetId_ exampleData exampleID)
       (mkCanned (noRecordSet 409, Some "StatusCode=409") (exampleFound, None) (200, None))
       [upsertCall exampleData]).
Proof.
  apply (CreateOrUpdate_upsert_error parseAzureResourceIDModel
           (cannedWorld (noRecordSet 409, Some "StatusCode=409") (exampleFound, None)
              (200, None))
           (noRecordSet 409)).
  reflexivity.
Defined.

Lemma CreateOrUpdate_unparsable_identifier_witness :
  ∃ w', run CreateOrUpdate0
          (cannedWorld (mkRecordSet 201 (Some "ptr1") None None None, None)
             (exampleFound, None) (200, None))
        = (Normal (Some (Errorf ParseError "Cannot parse Azure Id: ptr1")), w')
        ∧ Id (data w') = "ptr1".
Proof.
  eexists. split.
  - apply (CreateOrUpdate_unparsable_identifier parseAzureResourceIDModel
             (cannedWorld (mkRecordSet 201 (Some "ptr1") None None None, None)
                (exampleFound, None) (200, None))
             (mkRecordSet 201 (Some "ptr1") None None None)).
    + reflexivity.
    + reflexivity.
    + vm_compute. reflexivity.
  - reflexivity.
Defined.

Lemma example_canned_Upserts get del :
  Upserts parseAzureResourceIDModel (SetId_ exampleData exampleID) ""
    (mkCanned accepted get del) exampleID exampleResourceID (mkCanned accepted get del).
Proof.
  eexists. split; [reflexivity|]. split; [reflexivity|apply exampleID_parses].
Defined.

Lemma CreateOrUpdate_vanished_witness :
  ∃ w', run CreateOrUpdate0 (cannedWorld accepted (noRecordSet 404, None) (200, None))
        = (Normal None, w')
        ∧ Id (data w') = "".
Proof.
  eexists. split.
  - apply (CreateOrUpdate_vanished parseAzureResourceIDModel
             (cannedWorld accepted (noRecordSet 404, None) (200, None))
             exampleID exampleResourceID _ (noRecordSet 404)
             (mkCanned accepted (noRecordSet 404, None) (200, None))
             (example_canned_Upserts _ _)).
    + reflexivity.
    + reflexivity.
  - reflexivity.
Defined.

Lemma CreateOrUpdate_lookup_follows_identifier_witness :
  calls (snd (run CreateOrUpdate0 exampleWorld))
  = [upsertCall exampleData; getCall exampleResourceID].
Proof.
  apply (CreateOrUpdate_lookup_follows_identifier parseAzureResourceIDModel exampleWorld
           exampleID exampleResourceID (remote createdWorld) example_Upserts).
Defined.

Lemma CreateOrUpdate_ignores_identity_witness :
  fst (run CreateOrUpdate0 exampleWorld) = fst (run CreateOrUpdate0 unknownWorld).
Proof.
  apply (CreateOrUpdate_ignores_identity parseAzureResourceIDModel exampleWorld unknownWorld);
    reflexivity.
Defined.

Lemma CreateOrUpdate_without_records_witness :
  ∃ later,
    calls (snd (run CreateOrUpdate0 (mkWorld (clear exampleData "records") emptyDns [])))
    = CallCreateOrUpdate "rg1" "zone1" "ptr1" "PTR"
        (mkRecordSet 0 None (Some "ptr1") None
           (Some (mkRecordSetProperties (Some {["env" := "prod"]}) (Some 300) (Some []))))
        "" ""
      :: later.
Proof.
  destruct (CreateOrUpdate_without_records parseAzureResourceIDModel
              (mkWorld (clear exampleData "records") emptyDns []))
    as (later & Hc).
  - by vm_compute.
  - exists later. rewrite Hc. vm_compute. reflexivity.
Defined.

Lemma Delete_sends_one_call_witness :
  calls (snd (run Delete0 createdWorld))
  = calls createdWorld ++ [CallDelete "rg1" "zone1" "ptr1" "PTR" ""].
Proof.
  rewrite (Delete_sends_one_call parseAzureResourceIDModel createdWorld exampleResourceID).
  - vm_compute. reflexivity.
  - vm_compute. reflexivity.
Defined.
